(** * Medassist: session verification and role gate

    A shallow embedding of the code that makes up the token-based role gate
    of the Medassist portals:

    - the client gate, [fix-auth-template.js]: the inline async routine that
      every protected page runs on load;
    - the session endpoint, [getMe] of [src/controllers/auth.controller.js],
      as listed in the JWT migration notes;
    - [fetchUser] and [cacheUser] of [js/auth.js], from the same notes.

    The client code is written in a small script monad whose primitive
    calls are the calls the JavaScript makes on its host ([localStorage],
    [fetch], [alert], [console], [window.location]); a handler runs a script
    against a storage with its quota and a network, and records the calls in
    a trace.  A write to the storage can fail for lack of room, and then
    throws as it does in the browser. *)

From Stdlib Require Import ZArith.
From stdpp Require Import gmap strings list fin_maps pretty.

Set Warnings "-register-all".

(** ** JavaScript values *)

(** The values that travel through the gate are JSON documents, plus
    [undefined], which a missing property evaluates to.  Numbers are never
    inspected by the code below; they are kept as integers. *)
Inductive JSValue : Type :=
| JUndefined
| JNull
| JBool (b : bool)
| JNum (n : Z)
| JStr (s : string)
| JArr (items : list JSValue)
| JObj (props : list (string * JSValue)).

(** What a script can throw, or a promise reject with. *)
Inductive Exn : Type :=
| TypeError      (* property read on [undefined] or [null] *)
| NetworkError   (* [fetch] rejected: no response was received *)
| SyntaxError    (* [response.json()] rejected: the body is not JSON *)
| QuotaExceededError.  (* [setItem]: the storage has no room for the value *)

(** An own property of an object.  When a key occurs twice, the later
    binding wins, as in an object literal and in [JSON.parse]. *)
Fixpoint own_prop (k : string) (props : list (string * JSValue)) : option JSValue :=
  match props with
  | [] => None
  | (k', v) :: rest =>
      match own_prop k rest with
      | Some v' => Some v'
      | None => if String.eqb k' k then Some v else None
      end
  end.

(** The keys of an object, in insertion order. *)
Definition keys (v : JSValue) : list string :=
  match v with
  | JObj props => props.*1
  | _ => []
  end.

(** [v.k] for a property name [k] that no built-in prototype defines
    ([data], [user] and [role] are such names): reading from [undefined] or
    [null] throws, a primitive or an array has no such property. *)
Definition get_prop (v : JSValue) (k : string) : Exn + JSValue :=
  match v with
  | JUndefined | JNull => inl TypeError
  | JObj props => inr (default JUndefined (own_prop k props))
  | _ => inr JUndefined
  end.

(** [v === s] for a string literal [s]. *)
Definition strict_eq_str (v : JSValue) (s : string) : bool :=
  match v with
  | JStr t => String.eqb t s
  | _ => false
  end.

(** ** The host interface of the client script *)

(** The response object [fetch] resolves to.  [body] is the parsed payload,
    [None] when the payload is not JSON. *)
Record HttpResponse : Type := mkHttpResponse {
  status : Z;
  body : option JSValue
}.

(** [response.ok]: the status is in the range 200-299. *)
Definition ok (r : HttpResponse) : bool :=
  (200 <=? status r)%Z && (status r <=? 299)%Z.

(** How a promise settles. *)
Inductive Settlement (A : Type) : Type :=
| Fulfilled (a : A)
| Rejected (e : Exn).
Arguments Fulfilled {A} a.
Arguments Rejected {A} e.

(** The calls the gate makes on its host. *)
Inductive Call : Type :=
| GetItem (k : string)                    (* localStorage.getItem(k) *)
| SetItem (k v : string)                  (* localStorage.setItem(k, v) *)
| Clear                                   (* localStorage.clear() *)
| Replace (url : string)                  (* window.location.replace(url) *)
| Alert (msg : string)                    (* alert(msg) *)
| ConsoleError (label : string) (e : Exn) (* console.error(label, e) *)
| Fetch (url authorization : string)      (* fetch(url, {headers: {Authorization}}) *)
| ReadJson (r : HttpResponse).            (* r.json() *)

(** What each call evaluates to.  [setItem] returns nothing when the value
    is stored, and throws when it is not. *)
Definition Reply (c : Call) : Type :=
  match c with
  | GetItem _ => option string
  | SetItem _ _ => (Exn + unit)%type
  | Fetch _ _ => Settlement HttpResponse
  | ReadJson _ => Settlement JSValue
  | _ => unit
  end.

(** The two calls that return a promise; the gate awaits both. *)
Definition is_await (c : Call) : bool :=
  match c with
  | Fetch _ _ | ReadJson _ => true
  | _ => false
  end.

(** ** Scripts *)

(** A script either returns, throws, or makes a host call and goes on
    with its reply. *)
Inductive Script (A : Type) : Type :=
| Ret (a : A)
| Throw (e : Exn)
| Do (c : Call) (k : Reply c -> Script A).
Arguments Ret {A} a.
Arguments Throw {A} e.
Arguments Do {A} c k.

Fixpoint bind {A B : Type} (m : Script A) (f : A -> Script B) : Script B :=
  match m with
  | Ret a => f a
  | Throw e => Throw e
  | Do c k => Do c (fun r => bind (k r) f)
  end.

#[global] Instance script_ret : MRet Script := @Ret.
#[global] Instance script_bind : MBind Script := fun A B f m => bind m f.

(** [try { m } catch (e) { h e }] *)
Fixpoint try_catch {A : Type} (m : Script A) (h : Exn -> Script A) : Script A :=
  match m with
  | Ret a => Ret a
  | Throw e => h e
  | Do c k => Do c (fun r => try_catch (k r) h)
  end.

Definition call (c : Call) : Script (Reply c) := Do c Ret.

(** [await p]: the value of a fulfilled promise, or its rejection thrown. *)
Definition settled {A : Type} (s : Settlement A) : Script A :=
  match s with
  | Fulfilled a => Ret a
  | Rejected e => Throw e
  end.

Definition await_fetch (url authorization : string) : Script HttpResponse :=
  call (Fetch url authorization) ≫= settled.

Definition await_json (r : HttpResponse) : Script JSValue :=
  call (ReadJson r) ≫= settled.

(** [localStorage.setItem(k, v)] inside a script: what the call throws is
    thrown. *)
Definition set_item (k v : string) : Script unit :=
  r ← call (SetItem k v);
  match r with
  | inl e => Throw e
  | inr done => Ret done
  end.

(** [v.k] inside a script. *)
Definition prop (v : JSValue) (k : string) : Script JSValue :=
  match get_prop v k with
  | inl e => Throw e
  | inr x => Ret x
  end.

(** [!token] is false exactly for a non-empty string. *)
Definition truthy (item : option string) : option string :=
  match item with
  | Some EmptyString => None
  | other => other
  end.

(** The template strings of the request. *)
Definition endpoint (base_url : string) : string := base_url +:+ "/auth/me".
Definition bearer (token : string) : string := "Bearer " +:+ token.

(** ** The client gate, [fix-auth-template.js] *)

Section ClientGate.

(** [API_CONFIG.BASE_URL], defined by [config.js]. *)
Variable BASE_URL : string.
(** The role the page requires: the template's [EXPECTED_ROLE]. *)
Variable EXPECTED_ROLE : string.
(** [JSON.stringify]. *)
Variable stringify : JSValue -> string.

Definition login_page : string := "login.html".

Definition denial_message : string :=
  "Access denied. " +:+ EXPECTED_ROLE +:+ " role required.".

Definition gate : Script unit :=
  item ← call (GetItem "token");
  match truthy item with
  | None => call (Replace login_page)
  | Some token =>
      try_catch
        (response ← await_fetch (endpoint BASE_URL) (bearer token);
         if negb (ok response) then
           call Clear;; call (Replace login_page)
         else
           data ← await_json response;
           inner ← prop data "data";
           user ← prop inner "user";
           role ← prop user "role";
           if negb (strict_eq_str role EXPECTED_ROLE) then
             call (Alert denial_message);;
             call Clear;;
             call (Replace login_page)
           else
             set_item "userCache" (stringify user))
        (fun e =>
           call (ConsoleError "Auth error:" e);;
           call Clear;;
           call (Replace login_page))
  end.

End ClientGate.

(** ** Running a script on its host *)

(** What the host records: the calls of the script, and the moment the
    document that follows the inline script is rendered. *)
Inductive Event : Type :=
| Called (c : Call)
| Rendered.

Record World : Type := mkWorld {
  storage : gmap string string;   (* localStorage *)
  trace : list Event
}.

(** The network as the client sees it: what [fetch] settles to, given the
    URL and the [Authorization] header. *)
Definition Network : Type := string -> string -> Settlement HttpResponse.

(** The quota of the storage: which contents the browser has room for.
    [setItem] stores a value when the storage it would make is within the
    quota, and throws [QuotaExceededError] otherwise. *)
Definition Quota : Type := gmap string string -> bool.

Definition reply (net : Network) (room : Quota) (c : Call)
    (st : gmap string string) : Reply c :=
  match c as c0 return Reply c0 with
  | GetItem k => st !! k
  | SetItem k v =>
      if room (<[k:=v]> st) then inr tt else inl QuotaExceededError
  | Fetch url authorization => net url authorization
  | ReadJson r =>
      match body r with
      | Some v => Fulfilled v
      | None => Rejected SyntaxError
      end
  | Clear | Replace _ | Alert _ | ConsoleError _ _ => tt
  end.

Definition effect (room : Quota) (c : Call) (st : gmap string string)
  : gmap string string :=
  match c with
  | SetItem k v => if room (<[k:=v]> st) then <[k:=v]> st else st
  | Clear => ∅
  | _ => st
  end.

Definition host (net : Network) (room : Quota) (c : Call) (w : World)
  : Reply c * World :=
  (reply net room c (storage w),
   {| storage := effect room c (storage w); trace := trace w ++ [Called c] |}).

Inductive Completion (A : Type) : Type :=
| Normal (a : A)
| Abrupt (e : Exn).
Arguments Normal {A} a.
Arguments Abrupt {A} e.

(** The script run to its end, every promise settled in turn. *)
Fixpoint run {A : Type} (net : Network) (room : Quota) (p : Script A)
    (w : World) : Completion A * World :=
  match p with
  | Ret a => (Normal a, w)
  | Throw e => (Abrupt e, w)
  | Do c k => let '(r, w') := host net room c w in run net room (k r) w'
  end.

(** Calling an async function: the body runs up to and including the
    call under its first [await]; there the function is suspended and the
    call returns to its caller. *)
Inductive Progress (A : Type) : Type :=
| Finished (c : Completion A)
| Suspended (rest : Script A).
Arguments Finished {A} c.
Arguments Suspended {A} rest.

Fixpoint start {A : Type} (net : Network) (room : Quota) (p : Script A)
    (w : World) : Progress A * World :=
  match p with
  | Ret a => (Finished (Normal a), w)
  | Throw e => (Finished (Abrupt e), w)
  | Do c k =>
      let '(r, w') := host net room c w in
      if is_await c then (Suspended (k r), w') else start net room (k r) w'
  end.

(** The states of the gate.  The code keeps no state variable: the gate is
    [Checking] while suspended, and once finished it is [Redirecting] when
    it has called [window.location.replace] and [Authorized] otherwise. *)
Inductive GateState : Type := Checking | Authorized | Redirecting.

Definition is_replace (e : Event) : bool :=
  match e with
  | Called (Replace _) => true
  | _ => false
  end.

Definition is_fetch (e : Event) : bool :=
  match e with
  | Called (Fetch _ _) => true
  | _ => false
  end.

Definition is_alert (e : Event) : bool :=
  match e with
  | Called (Alert _) => true
  | _ => false
  end.

Definition outcome (w : World) : GateState :=
  if existsb is_replace (trace w) then Redirecting else Authorized.

Definition state_of {A : Type} (p : Progress A * World) : GateState :=
  match p.1 with
  | Suspended _ => Checking
  | Finished _ => outcome p.2
  end.

(** A fresh page: the given storage, nothing recorded yet. *)
Definition fresh (st : gmap string string) : World :=
  {| storage := st; trace := [] |}.

(** A protected page, as the migration notes lay it out: the inline script
    [(async function() { ... })();] comes first in the body, the protected
    content follows.  The script statement is over when the async call
    returns; the host then goes on with the document, and a suspended
    script is resumed afterwards, when its promise has settled. *)
Definition render (w : World) : World :=
  {| storage := storage w; trace := trace w ++ [Rendered] |}.

Definition view_load (net : Network) (room : Quota) (script : Script unit)
    (w : World) : World :=
  let '(p, w1) := start net room script w in
  let w2 := render w1 in
  match p with
  | Finished _ => w2
  | Suspended rest => (run net room rest w2).2
  end.

(** ** The session endpoint, [GET /auth/me] *)

Module Server.

(** What Express sends: [res.status(code).json(payload)]. *)
Record Sent : Type := mkSent {
  code : Z;
  payload : JSValue
}.

(** Modelled from the spec: the helper [successResponse] is missing from
    the listing.  A success is answered with
    [{success: true, message, data}], as in the response example of the
    notes. *)
Definition successResponse (message : string) (data : JSValue) : Sent :=
  {| code := 200;
     payload := JObj [("success", JBool true); ("message", JStr message);
                      ("data", data)] |}.

(** Modelled from the spec: the helper [errorResponse] is missing from the
    listing.  A failure is answered with the given status and
    [{success: false, message}]. *)
Definition errorResponse (message : string) (statusCode : Z) : Sent :=
  {| code := statusCode;
     payload := JObj [("success", JBool false); ("message", JStr message)] |}.

(** [req.user]: the payload of the verified token, attached by
    [authMiddleware]. *)
Record TokenPayload : Type := mkTokenPayload {
  userId : string;
  email : string;
  role : string
}.

(** A stored user document: field name to value. *)
Abbreviation Document := (gmap string JSValue).

(** The [User] collection, keyed by [_id]; a query can also fail. *)
Inductive Store : Type :=
| Online (users : gmap string (gmap string JSValue))
| Offline (e : Exn).

(** [User.findById(id)]: the document, or [null]. *)
Definition findById (db : Store) (id : string) : Exn + option Document :=
  match db with
  | Online users => inr (users !! id)
  | Offline e => inl e
  end.

(** [.select('-password')] *)
Definition select_without (k : string) (d : Document) : Document :=
  delete k d.

(** [user.k] on a document. *)
Definition field (d : Document) (k : string) : JSValue :=
  default JUndefined (d !! k).

(** [...(cond && { props })] *)
Definition spread_when (cond : bool) (props : list (string * JSValue))
  : list (string * JSValue) :=
  if cond then props else [].

(** How the handler ends: a response is sent, or the error is logged and
    handed to [next]. *)
Inductive Handled : Type :=
| Responded (r : Sent)
| Forwarded (e : Exn).

(** The object [getMe] returns under [data.user]. *)
Definition projection (user : Document) : JSValue :=
  JObj ([("id", field user "_id");
         ("name", field user "name");
         ("email", field user "email");
         ("role", field user "role");
         ("phone", field user "phone");
         ("address", field user "address");
         ("createdAt", field user "createdAt")]
        ++ spread_when (strict_eq_str (field user "role") "pharmacy")
             [("pharmacyName", field user "pharmacyName");
              ("licenseNumber", field user "licenseNumber")]
        ++ spread_when (strict_eq_str (field user "role") "delivery")
             [("firstName", field user "firstName");
              ("vehicleType", field user "vehicleType")]).

Definition getMe (db : Store) (req_user : TokenPayload) : Handled :=
  match findById db (userId req_user) with
  | inl error => Forwarded error
  | inr found =>
      match select_without "password" <$> found with
      | None => Responded (errorResponse "User not found" 404)
      | Some user =>
          Responded (successResponse "User profile retrieved"
                       (JObj [("user", projection user)]))
      end
  end.

(** [router.get('/auth/me', authMiddleware, authController.getMe)]:
    the middleware either answers the request itself or attaches
    [req.user] and lets [getMe] run. *)
Section Route.
Context {Request : Type}.
Variable middleware : Request -> Sent + TokenPayload.

Definition auth_me (db : Store) (req : Request) : Handled :=
  match middleware req with
  | inl rejection => Responded rejection
  | inr req_user => getMe db req_user
  end.
End Route.

(** What [res.json] puts on the wire, read back by [JSON.parse]:
    a property whose value is [undefined] is left out, an [undefined]
    array item becomes [null]. *)
Fixpoint on_wire (v : JSValue) : JSValue :=
  match v with
  | JArr items =>
      JArr (map (fun x => match x with
                          | JUndefined => JNull
                          | _ => on_wire x
                          end) items)
  | JObj props =>
      JObj (flat_map (fun '(k, x) => match x with
                                     | JUndefined => []
                                     | _ => [(k, on_wire x)]
                                     end) props)
  | other => other
  end.

(** The response as [fetch] hands it to the client. *)
Definition received (r : Sent) : HttpResponse :=
  {| status := code r; body := Some (on_wire (payload r)) |}.

(** Why a credential is rejected by the codec. *)
Inductive VerifyFailure : Type :=
| Malformed
| SignatureInvalid
| Expired.


(** The text of a string field; a field of another kind has none. *)
Definition text (v : JSValue) : string :=
  match v with
  | JStr s => s
  | _ => ""
  end.

(** The Credential Codec, the Identity Store Gateway and [authMiddleware]
    are not part of the listing.  [verify] checks a credential and either
    rejects it or yields its payload; [Unauthenticated] is the rejection the
    middleware sends; [users] is the identity store. *)
Section Middleware.

Variable verify : string -> VerifyFailure + TokenPayload.
Variable Unauthenticated : Sent.
Variable users : gmap string (gmap string JSValue).





End Middleware.

(** A response that rejects: its status is outside 200-299. *)
Definition rejects (r : Sent) : Prop := ok (received r) = false.

End Server.

(** ** The paths through the gate *)

(** [data.data.user] and [user.role], as lines 18 and 19 of the template
    evaluate them: the user object with its role, or what is thrown. *)
Definition read_user (data : JSValue) : Exn + JSValue * JSValue :=
  match get_prop data "data" with
  | inl e => inl e
  | inr inner =>
      match get_prop inner "user" with
      | inl e => inl e
      | inr user =>
          match get_prop user "role" with
          | inl e => inl e
          | inr r => inr (user, r)
          end
      end
  end.

(** The ways a run of the gate can go. *)
Inductive Path : Type :=
| NoCredential
| NetworkFailed (token : string) (e : Exn)
| ServerRejected (token : string)
| Unreadable (token : string) (r : HttpResponse) (e : Exn)
| RoleDenied (token : string) (r : HttpResponse)
| RoleMatched (token : string) (r : HttpResponse) (user : JSValue).

Section Paths.

Variable BASE_URL : string.
Variable EXPECTED_ROLE : string.
Variable stringify : JSValue -> string.
Variable net : Network.
Variable room : Quota.

(** The path taken, decided by the stored credential and the network. *)
Definition path_of (item : option string) : Path :=
  match truthy item with
  | None => NoCredential
  | Some token =>
      match net (endpoint BASE_URL) (bearer token) with
      | Rejected e => NetworkFailed token e
      | Fulfilled r =>
          if negb (ok r) then ServerRejected token
          else
            match body r with
            | None => Unreadable token r SyntaxError
            | Some data =>
                match read_user data with
                | inl e => Unreadable token r e
                | inr (user, r') =>
                    if strict_eq_str r' EXPECTED_ROLE
                    then RoleMatched token r user
                    else RoleDenied token r
                end
            end
      end
  end.

Definition fetched (token : string) : list Event :=
  [Called (GetItem "token"); Called (Fetch (endpoint BASE_URL) (bearer token))].

Definition bail_out : list Event :=
  [Called Clear; Called (Replace login_page)].

(** The storage the cache write of line 25 asks for. *)
Definition cached (user : JSValue) (st : gmap string string) : gmap string string :=
  <["userCache" := stringify user]> st.

(** The calls made along a path, from the storage [st].  On a matching role
    the cache is written last; when the storage has no room for it, the
    write throws and the [catch] takes over. *)
Definition path_trace (p : Path) (st : gmap string string) : list Event :=
  match p with
  | NoCredential =>
      [Called (GetItem "token"); Called (Replace login_page)]
  | NetworkFailed token e =>
      fetched token ++ Called (ConsoleError "Auth error:" e) :: bail_out
  | ServerRejected token =>
      fetched token ++ bail_out
  | Unreadable token r e =>
      fetched token
        ++ Called (ReadJson r) :: Called (ConsoleError "Auth error:" e) :: bail_out
  | RoleDenied token r =>
      fetched token
        ++ Called (ReadJson r) :: Called (Alert (denial_message EXPECTED_ROLE))
        :: bail_out
  | RoleMatched token r user =>
      fetched token
        ++ Called (ReadJson r) :: Called (SetItem "userCache" (stringify user))
        :: (if room (cached user st) then []
            else Called (ConsoleError "Auth error:" QuotaExceededError) :: bail_out)
  end.

(** The storage a path leaves behind. *)
Definition path_storage (p : Path) (st : gmap string string) : gmap string string :=
  match p with
  | NoCredential => st
  | RoleMatched _ _ user => if room (cached user st) then cached user st else ∅
  | _ => ∅
  end.

(** A protected view load, from a fresh page to the end of the gate. *)
Definition load (st : gmap string string) : World :=
  (run net room (gate BASE_URL EXPECTED_ROLE stringify) (fresh st)).2.

End Paths.

(** How many recorded events satisfy [f]. *)
Definition count (f : Event -> bool) (tr : list Event) : nat :=
  length (List.filter f tr).

(** The gate can only have reached [Authorized] within [tr] when [tr] has
    the write of the display cache, the last step of the only path that does
    not redirect. *)
Definition is_cache_write (e : Event) : bool :=
  match e with
  | Called (SetItem k _) => String.eqb k "userCache"
  | _ => false
  end.

(** Verify-then-render: whatever is rendered is rendered after the gate
    has reached [Authorized]. *)
Definition verify_then_render (tr : list Event) : Prop :=
  forall before after : list Event,
    tr = before ++ Rendered :: after -> existsb is_cache_write before = true.

(** ** Sample data *)

Module Sample.

Import Server.

Definition base_url : string := "http://localhost:5000/api".

(** [JSON.stringify] on the values of the model, for integers below
    10^21. *)
Definition quote_mark : Ascii.ascii := Ascii.ascii_of_N 34.

Definition hex_digit (n : N) : Ascii.ascii :=
  Ascii.ascii_of_N (if (n <? 10)%N then 48 + n else 87 + n).

Definition backslash : Ascii.ascii := Ascii.ascii_of_N 92.

(** A character inside a JSON string: the quote, the backslash and the
    control characters are escaped. *)
Definition escaped (c : Ascii.ascii) : string :=
  let n := Ascii.N_of_ascii c in
  if (n =? 34)%N then String backslash (String quote_mark "")
  else if (n =? 92)%N then String backslash (String backslash "")
  else if (n =? 8)%N then String backslash "b"
  else if (n =? 9)%N then String backslash "t"
  else if (n =? 10)%N then String backslash "n"
  else if (n =? 12)%N then String backslash "f"
  else if (n =? 13)%N then String backslash "r"
  else if (n <? 32)%N then
    String backslash "u00"
    +:+ String (hex_digit (n / 16)) (String (hex_digit (n mod 16)) "")
  else String c "".

Fixpoint escape (s : string) : string :=
  match s with
  | EmptyString => ""
  | String c rest => escaped c +:+ escape rest
  end.

Definition quoted (s : string) : string :=
  String quote_mark (escape s) +:+ String quote_mark "".

Definition joined (parts : list string) : string :=
  match parts with
  | [] => ""
  | first :: rest => fold_left (fun text part => text +:+ "," +:+ part) rest first
  end.

Fixpoint stringify (v : JSValue) : string :=
  match v with
  | JUndefined | JNull => "null"
  | JBool true => "true"
  | JBool false => "false"
  | JNum n => pretty n
  | JStr s => quoted s
  | JArr items => "[" +:+ joined (map stringify items) +:+ "]"
  | JObj props =>
      "{" +:+ joined (flat_map (fun '(k, x) =>
                                  match x with
                                  | JUndefined => []
                                  | _ => [quoted k +:+ ":" +:+ stringify x]
                                  end) props) +:+ "}"
  end.

(** A pharmacy account, as stored. *)
Definition pharmacist : Document :=
  list_to_map
    [("_id", JStr "u1"); ("name", JStr "John Doe");
     ("email", JStr "john@example.com"); ("password", JStr "$2b$10$hash");
     ("role", JStr "pharmacy"); ("pharmacyName", JStr "HealthCare Pharmacy");
     ("licenseNumber", JStr "PH12345")].

Definition users : gmap string Document := {[ "u1" := pharmacist ]}.

(** A codec that accepts two credentials, one for [u1] and one for an
    account that has since been deleted, and rejects the rest. *)
Definition verify (credential : string) : VerifyFailure + TokenPayload :=
  if String.eqb credential "credential-of-u1" then
    inr {| userId := "u1"; email := "john@example.com"; role := "pharmacy" |}
  else if String.eqb credential "credential-of-u2" then
    inr {| userId := "u2"; email := "jane@example.com"; role := "admin" |}
  else if String.eqb credential "stale" then inl Expired
  else if String.eqb credential "forged" then inl SignatureInvalid
  else inl Malformed.

(** A middleware that checks the token only, as the notes describe the
    route: it verifies the token and attaches its payload, and leaves the
    lookup of the user to the controller. *)
Definition middleware (credential : option string) : Sent + TokenPayload :=
  match credential with
  | None => inl (errorResponse "Unauthenticated" 401)
  | Some c =>
      match verify c with
      | inl _ => inl (errorResponse "Unauthenticated" 401)
      | inr req_user => inr req_user
      end
  end.

(** The network in front of the sample server. *)
Definition credential_of (authorization : string) : option string :=
  if String.prefix "Bearer " authorization
  then Some (String.substring 7 (String.length authorization - 7) authorization)
  else None.

Definition network : Network :=
  fun _ authorization =>
    match auth_me middleware (Online users) (credential_of authorization) with
    | Responded r => Fulfilled (received r)
    | Forwarded _ => Fulfilled {| status := 500; body := None |}
    end.

(** The server cannot be reached. *)
Definition offline : Network := fun _ _ => Rejected NetworkError.

Definition logged_in (credential : string) : gmap string string :=
  {[ "token" := credential ]}.

(** What the sample server answers to the credential of [u1]. *)
Definition profile : JSValue :=
  on_wire (projection (select_without "password" pharmacist)).

Definition envelope : JSValue :=
  JObj [("success", JBool true); ("message", JStr "User profile retrieved");
        ("data", JObj [("user", profile)])].

Definition answer : HttpResponse := {| status := 200; body := Some envelope |}.

(** A storage with room for everything, and one with room for [limit]
    characters, keys and values together. *)
Definition unlimited : Quota := fun _ => true.

Definition used (st : gmap string string) : nat :=
  map_fold (fun k v n => String.length k + String.length v + n) 0 st.

Definition within (limit : nat) : Quota := fun st => used st <=? limit.

(** A page of the sample site that requires [required_role]. *)
Definition page (required_role : string) : Script unit :=
  gate base_url required_role stringify.

Definition visit (required_role : string) (net : Network)
    (st : gmap string string) : World :=
  load base_url required_role stringify net unlimited st.

(** The same visit in a browser that has room for [limit] characters. *)
Definition visit_within (limit : nat) (required_role : string) (net : Network)
    (st : gmap string string) : World :=
  load base_url required_role stringify net (within limit) st.

End Sample.

(** ** The authentication module, [js/auth.js] *)

Module Auth.

(** How a method ends when no native exception escapes it: it returns a
    value, or it throws [new Error(message)]. *)
Inductive Ending (A : Type) : Type :=
| Returned (a : A)
| Threw (message : string).
Arguments Returned {A} a.
Arguments Threw {A} message.

(** [data.data.user], the one expression [fetchUser] reads the response
    with. *)
Definition user_of (data : JSValue) : Exn + JSValue :=
  match get_prop data "data" with
  | inl e => inl e
  | inr inner => get_prop inner "user"
  end.

Section Methods.

Variable BASE_URL : string.
Variable stringify : JSValue -> string.

(** The string [setItem] receives for [JSON.stringify(v)]: the JSON text,
    or, [JSON.stringify(undefined)] being [undefined], the word
    "undefined". *)
Definition stored (v : JSValue) : string :=
  match v with
  | JUndefined => "undefined"
  | _ => stringify v
  end.

Definition cacheUser (user : JSValue) : Script unit :=
  set_item "userCache" (stored user).

(** Modelled from the spec: [getToken] is missing from the listing.  The
    credential is the [token] slot of the storage, the slot the pages
    read. *)
Definition getToken : Script (option string) :=
  call (GetItem "token").

Definition me_url : string := BASE_URL +:+ "/api/auth/me".

Definition fetchUser : Script (Ending JSValue) :=
  item ← getToken;
  match truthy item with
  | None => mret (Returned JNull)
  | Some token =>
      response ← await_fetch me_url (bearer token);
      if negb (ok response) then mret (Threw "Auth failed")
      else
        data ← await_json response;
        inner ← prop data "data";
        user ← prop inner "user";
        cacheUser user;;
        inner' ← prop data "data";
        user' ← prop inner' "user";
        mret (Returned user')
  end.

End Methods.

End Auth.

(** ** Faulty answers *)

Module Faulty.

(** A success status with a body that is not JSON. *)
Definition not_json : Network :=
  fun _ _ => Fulfilled {| status := 200; body := None |}.

(** A success status with a body that has no [data.user]. *)
Definition no_user : Network :=
  fun _ _ =>
    Fulfilled {| status := 200;
                 body := Some (JObj [("success", JBool true); ("data", JObj [])]) |}.

End Faulty.

(** ** Serialised properties *)

(** What serialisation makes of a property: nothing when it is
    [undefined], its serialised value otherwise. *)
Definition sent_as (v : JSValue) : option JSValue :=
  match v with
  | JUndefined => None
  | _ => Some (Server.on_wire v)
  end.

(** * Properties of the client gate *)

(** Closes a goal between two runs that differ in how the trace is
    bracketed. *)
Ltac settle_trace := cbn; rewrite <- ?app_assoc; reflexivity.

(** Rewrites a load, given the lemma that describes it by its path, along
    the path the hypotheses select. *)
Ltac walk_by described :=
  rewrite described; unfold path_of;
  repeat match goal with
         | H : ?l = _ |- context [?l] => rewrite H; cbn
         end.

Section GateFacts.

Context (BASE_URL EXPECTED_ROLE : string) (stringify : JSValue -> string).
Context (net : Network) (room : Quota).

Local Abbreviation the_gate := (gate BASE_URL EXPECTED_ROLE stringify).
Local Abbreviation path := (path_of BASE_URL EXPECTED_ROLE net).
Local Abbreviation calls := (path_trace BASE_URL EXPECTED_ROLE stringify room).
Local Abbreviation left_by := (path_storage stringify room).

(** The gate always returns, along the path [path_of] names. *)
Lemma run_gate (w : World) :
  run net room the_gate w
  = (Normal (),
     {| storage := left_by (path (storage w !! "token")) (storage w);
        trace := trace w
                 ++ calls (path (storage w !! "token")) (storage w) |}).
Proof.
  destruct w as [st tr]. unfold gate, path_of, set_item. cbn.
  destruct (truthy (st !! "token")) as [token|]; cbn; [|settle_trace].
  destruct (net (endpoint BASE_URL) (bearer token)) as [r|e]; cbn;
    [|settle_trace].
  destruct (ok r); cbn; [|settle_trace].
  destruct (body r) as [data|]; cbn; [|settle_trace].
  unfold read_user, prop.
  destruct (get_prop data "data") as [e|inner]; cbn; [settle_trace|].
  destruct (get_prop inner "user") as [e|user]; cbn; [settle_trace|].
  destruct (get_prop user "role") as [e|r']; cbn; [settle_trace|].
  destruct (strict_eq_str r' EXPECTED_ROLE); cbn; [|settle_trace].
  unfold cached. destruct (room _); settle_trace.
Qed.

Local Abbreviation page_load :=
  (load BASE_URL EXPECTED_ROLE stringify net room).

Lemma load_path (st : gmap string string) :
  page_load st
  = {| storage := left_by (path (st !! "token")) st;
       trace := calls (path (st !! "token")) st |}.
Proof. unfold load. rewrite run_gate. reflexivity. Qed.

(** Only the credential slot is ever read. *)
Lemma reads_of_path (p : Path) (st : gmap string string) (k : string) :
  Called (GetItem k) ∈ calls p st -> k = "token".
Proof.
  destruct p; cbn; try destruct (room _); intros H;
    repeat (apply elem_of_cons in H as [H|H]; [congruence|]);
    by apply elem_of_nil in H.
Qed.

(** An alert is shown on the role mismatch and on no other path. *)
Lemma alert_iff_denied (st : gmap string string) :
  existsb is_alert (trace (page_load st)) = true
  <-> exists t r, path (st !! "token") = RoleDenied t r.
Proof.
  rewrite load_path. cbn.
  destruct (path (st !! "token")); cbn; try destruct (room _); cbn; split;
    try discriminate; try (intros (? & ? & [=])); eauto.
Qed.

(** C1: the outcome of the gate does not depend on the display cache.
    Two loads whose storages differ only in the [userCache] slot, against
    the same network, make the same calls and end in the same state, and
    the only slot a load ever reads is [token]. *)
Theorem cache_never_decides (st1 st2 : gmap string string) :
  (forall k : string, k <> "userCache" -> st1 !! k = st2 !! k) ->
  outcome (page_load st1) = outcome (page_load st2)
  /\ trace (page_load st1) = trace (page_load st2)
  /\ (forall k : string, Called (GetItem k) ∈ trace (page_load st1) -> k = "token").
Proof.
  intros Hsame.
  assert (Htoken : st1 !! "token" = st2 !! "token") by (by apply Hsame).
  assert (Hcached : forall user : JSValue,
             cached stringify user st1 = cached stringify user st2).
  { intros user. apply map_eq. intros k. unfold cached.
    destruct (decide (k = "userCache")) as [->|Hk].
    - by rewrite !lookup_insert_eq.
    - rewrite !lookup_insert_ne by done. by apply Hsame. }
  assert (Hcalls : forall p : Path, calls p st1 = calls p st2)
    by (intros p; destruct p; cbn; by rewrite ?Hcached).
  unfold outcome. rewrite !load_path, Htoken. cbn. rewrite Hcalls.
  repeat split. apply reads_of_path.
Qed.

(** C7: with no stored credential the gate redirects to the login page
    at once; no request is sent and the storage is left as it is. *)
Theorem absent_credential_redirects (st : gmap string string) :
  st !! "token" = None ->
  outcome (page_load st) = Redirecting
  /\ trace (page_load st)
     = [Called (GetItem "token"); Called (Replace login_page)]
  /\ count is_fetch (trace (page_load st)) = 0
  /\ storage (page_load st) = st.
Proof. intros Habsent. unfold outcome. walk_by load_path. done. Qed.

(** C8: when the request is answered with a non-success status, or fails
    on the network, the gate empties the storage, so that both the
    credential and the display cache are gone, redirects, and has sent
    exactly one request. *)
Theorem rejection_clears_and_redirects (st : gmap string string) (token : string) :
  truthy (st !! "token") = Some token ->
  match net (endpoint BASE_URL) (bearer token) with
  | Rejected _ => True
  | Fulfilled r => ok r = false
  end ->
  storage (page_load st) !! "token" = None
  /\ storage (page_load st) !! "userCache" = None
  /\ outcome (page_load st) = Redirecting
  /\ count is_fetch (trace (page_load st)) = 1.
Proof.
  intros Htoken Hnet. unfold outcome. walk_by load_path.
  destruct (net (endpoint BASE_URL) (bearer token)) as [r|e]; cbn.
  - rewrite Hnet. cbn. done.
  - done.
Qed.

(** C9, as the code has it: when the endpoint answers with success and the
    role it returns is the required one, the gate writes the returned user
    into the display cache; the write is inside the [try].  When the storage
    has room for it, the gate ends [Authorized], with no redirect, and the
    credential and every other slot stay as they were.  When it has not,
    [setItem] throws, and the [catch] logs the error, empties the storage and
    redirects. *)
Theorem matching_role_authorizes (st : gmap string string) (token : string)
    (r : HttpResponse) (data user role : JSValue) :
  truthy (st !! "token") = Some token ->
  net (endpoint BASE_URL) (bearer token) = Fulfilled r ->
  ok r = true ->
  body r = Some data ->
  read_user data = inr (user, role) ->
  strict_eq_str role EXPECTED_ROLE = true ->
  if room (cached stringify user st)
  then outcome (page_load st) = Authorized
       /\ storage (page_load st) = <["userCache" := stringify user]> st
       /\ storage (page_load st) !! "token" = st !! "token"
       /\ count is_replace (trace (page_load st)) = 0
  else outcome (page_load st) = Redirecting
       /\ storage (page_load st) = ∅
       /\ trace (page_load st)
          = fetched BASE_URL token
            ++ [Called (ReadJson r);
                Called (SetItem "userCache" (stringify user));
                Called (ConsoleError "Auth error:" QuotaExceededError);
                Called Clear; Called (Replace login_page)].
Proof.
  intros Htoken Hnet Hok Hbody Huser Hrole. unfold outcome. walk_by load_path.
  destruct (room (cached stringify user st)); cbn; [|done].
  repeat split. unfold cached. by rewrite lookup_insert_ne.
Qed.

(** C4: when the endpoint answers with success but the role it returns is
    not the required one, the gate tells the user with an alert, empties
    the storage, so that the credential is gone, and ends [Redirecting].
    The alert sets the denial apart from a rejected request: of all loads,
    those that end in a role mismatch are the only ones that show one. *)
Theorem role_mismatch_denied (st : gmap string string) (token : string)
    (r : HttpResponse) (data user role : JSValue) :
  truthy (st !! "token") = Some token ->
  net (endpoint BASE_URL) (bearer token) = Fulfilled r ->
  ok r = true ->
  body r = Some data ->
  read_user data = inr (user, role) ->
  strict_eq_str role EXPECTED_ROLE = false ->
  outcome (page_load st) = Redirecting
  /\ trace (page_load st)
     = fetched BASE_URL token
       ++ [Called (ReadJson r); Called (Alert (denial_message EXPECTED_ROLE));
           Called Clear; Called (Replace login_page)]
  /\ storage (page_load st) !! "token" = None
  /\ (forall st' : gmap string string,
        existsb is_alert (trace (page_load st')) = true
        <-> exists t r',
            path_of BASE_URL EXPECTED_ROLE net (st' !! "token") = RoleDenied t r').
Proof.
  intros Htoken Hnet Hok Hbody Huser Hrole.
  split; [|split; [|split]]; [| | |apply alert_iff_denied];
    unfold outcome; walk_by load_path; done.
Qed.

(** C10: on every path that rejects after the request was sent, the gate
    calls [localStorage.clear()] and no slot at all is left in the storage.
    On the path of a matching role, [userCache] is the only slot the gate
    writes: when the write is stored, every other slot keeps its value and
    nothing is cleared; when the storage has no room for it, the [catch]
    clears the storage like on any other rejection. *)
Theorem rejection_clears_whole_storage (st : gmap string string) :
  match path_of BASE_URL EXPECTED_ROLE net (st !! "token") with
  | NoCredential => True
  | RoleMatched _ _ user =>
      (forall k v : string,
          Called (SetItem k v) ∈ trace (page_load st) -> k = "userCache")
      /\ if room (cached stringify user st)
         then (forall k : string,
                  k <> "userCache" -> storage (page_load st) !! k = st !! k)
              /\ (Called Clear ∉ trace (page_load st))
         else Called Clear ∈ trace (page_load st)
              /\ (forall k : string, storage (page_load st) !! k = None)
  | NetworkFailed _ _ | ServerRejected _ | Unreadable _ _ _ | RoleDenied _ _ =>
      Called Clear ∈ trace (page_load st)
      /\ (forall k : string, storage (page_load st) !! k = None)
  end.
Proof.
  rewrite load_path.
  destruct (path (st !! "token")); cbn; try done;
    try (split; [by repeat constructor | intros k; apply lookup_empty]).
  destruct (room (cached stringify user st)); cbn.
  - repeat split.
    + intros k v H.
      repeat (apply elem_of_cons in H as [H|H]; [congruence|]).
      by apply elem_of_nil in H.
    + intros k Hk. unfold cached. by rewrite lookup_insert_ne.
    + intros H.
      repeat (apply elem_of_cons in H as [H|H]; [congruence|]).
      by apply elem_of_nil in H.
  - repeat split.
    + intros k v H.
      repeat (apply elem_of_cons in H as [H|H]; [congruence|]).
      by apply elem_of_nil in H.
    + by repeat constructor.
Qed.

(** With a credential in store, the call of the gate returns as soon as
    the request is sent: the gate is suspended, the page goes on. *)
Lemma start_gate (st : gmap string string) (token : string) :
  truthy (st !! "token") = Some token ->
  exists rest : Script unit,
    start net room the_gate (fresh st)
    = (Suspended rest, {| storage := st; trace := fetched BASE_URL token |}).
Proof.
  intros Htoken. unfold gate. cbn. rewrite Htoken. cbn. eauto.
Qed.

(** Running a script to its end is starting it and then running what was
    suspended. *)
Lemma run_start {A : Type} (p : Script A) (w : World) :
  run net room p w
  = match start net room p w with
    | (Finished c, w') => (c, w')
    | (Suspended rest, w') => run net room rest w'
    end.
Proof.
  revert w. induction p as [a|e|c k IH]; intros w; cbn; try reflexivity.
  destruct (is_await c); [reflexivity | apply IH].
Qed.

(** What was recorded before a run is kept in front of what the run
    records. *)
Lemma run_after {A : Type} (p : Script A) (st : gmap string string)
    (tr1 tr2 : list Event) :
  run net room p {| storage := st; trace := tr1 ++ tr2 |}
  = ((run net room p {| storage := st; trace := tr2 |}).1,
     {| storage := storage (run net room p {| storage := st; trace := tr2 |}).2;
        trace := tr1
                 ++ trace (run net room p {| storage := st; trace := tr2 |}).2 |}).
Proof.
  revert st tr2. induction p as [a|e|c k IH]; intros st tr2; cbn;
    try reflexivity.
  rewrite <- app_assoc. apply IH.
Qed.

(** A page load with a credential in store: the request is sent, the
    document is rendered, and only then the gate goes on to its verdict. *)
Lemma view_load_gate (st : gmap string string) (token : string) :
  truthy (st !! "token") = Some token ->
  trace (view_load net room the_gate (fresh st))
  = fetched BASE_URL token
    ++ Rendered :: drop 2 (calls (path (st !! "token")) st).
Proof.
  intros Htoken. unfold view_load.
  pose proof (run_start the_gate (fresh st)) as Hrun.
  destruct (start_gate st token Htoken) as [rest Hstart].
  rewrite Hstart in Hrun |- *. unfold render. cbn [storage trace snd].
  rewrite <- (app_nil_r (fetched BASE_URL token ++ [Rendered])), run_after.
  rewrite <- (app_nil_r (fetched BASE_URL token)), run_after in Hrun.
  rewrite run_gate in Hrun. cbn [storage trace fresh] in Hrun.
  injection Hrun as _ _ Htrace.
  rewrite Htrace. cbn. reflexivity.
Qed.

(** Whenever a credential is in store, the document is rendered while the
    gate is still waiting for the endpoint. *)
Lemma render_not_blocked (st : gmap string string) (token : string) :
  truthy (st !! "token") = Some token ->
  ~ verify_then_render (trace (view_load net room the_gate (fresh st))).
Proof.
  intros Htoken Hclaim.
  specialize (Hclaim (fetched BASE_URL token)
                (drop 2 (calls (path (st !! "token")) st))
                (view_load_gate st token Htoken)).
  discriminate Hclaim.
Qed.

(** C3, as the code has it: the gate ends [Authorized] only after the
    endpoint has answered with success and the role check has passed, the
    cache write, which the storage had room for, being its last call; but the gate does not hold the page
    back: its call returns while it is still [Checking], as soon as the
    request is sent. *)
Theorem authorized_only_after_verification (st : gmap string string) :
  outcome (page_load st) = Authorized ->
  exists (token : string) (r : HttpResponse) (data user role : JSValue),
    truthy (st !! "token") = Some token
    /\ net (endpoint BASE_URL) (bearer token) = Fulfilled r
    /\ ok r = true
    /\ body r = Some data
    /\ read_user data = inr (user, role)
    /\ strict_eq_str role EXPECTED_ROLE = true
    /\ trace (page_load st)
       = fetched BASE_URL token
         ++ [Called (ReadJson r); Called (SetItem "userCache" (stringify user))]
    /\ state_of (start net room the_gate (fresh st)) = Checking
    /\ room (cached stringify user st) = true.
Proof.
  unfold outcome. rewrite load_path. unfold path_of.
  destruct (truthy (st !! "token")) as [token|] eqn:Htoken; [|discriminate].
  destruct (net (endpoint BASE_URL) (bearer token)) as [r|e] eqn:Hnet;
    [|discriminate].
  destruct (ok r) eqn:Hok; [|discriminate]. cbn [negb].
  destruct (body r) as [data|] eqn:Hbody; [|discriminate].
  destruct (read_user data) as [e|[user role]] eqn:Huser; [discriminate|].
  destruct (strict_eq_str role EXPECTED_ROLE) eqn:Hrole; [|discriminate].
  cbn -[start gate]. destruct (room (cached stringify user st)) eqn:Hroom;
    [|discriminate].
  intros _. exists token, r, data, user, role.
  repeat split; try done.
  destruct (start_gate st token Htoken) as [rest ->]. reflexivity.
Qed.

End GateFacts.

(** * Properties of the session endpoint *)

Section EndpointFacts.

Import Server.

(** The response [getMe] sends when no record matches. *)
Local Abbreviation not_found := (errorResponse "User not found" 404).

Lemma getMe_missing (users : gmap string Document) (req_user : TokenPayload) :
  users !! userId req_user = None ->
  getMe (Online users) req_user = Responded not_found.
Proof. intros Hnone. unfold getMe, findById. rewrite Hnone. reflexivity. Qed.

Lemma getMe_found (users : gmap string Document) (req_user : TokenPayload)
    (doc : Document) :
  users !! userId req_user = Some doc ->
  getMe (Online users) req_user
  = Responded (successResponse "User profile retrieved"
                 (JObj [("user", projection (select_without "password" doc))])).
Proof. intros Hdoc. unfold getMe, findById. rewrite Hdoc. reflexivity. Qed.

(** The keys of the projection: seven for every role, two more for a
    pharmacy, two more for a delivery account. *)
Lemma keys_projection (d : Document) :
  keys (projection d)
  = ["id"; "name"; "email"; "role"; "phone"; "address"; "createdAt"]
    ++ (if strict_eq_str (field d "role") "pharmacy"
        then ["pharmacyName"; "licenseNumber"] else [])
    ++ (if strict_eq_str (field d "role") "delivery"
        then ["firstName"; "vehicleType"] else []).
Proof.
  unfold projection.
  destruct (strict_eq_str (field d "role") "pharmacy"),
           (strict_eq_str (field d "role") "delivery"); reflexivity.
Qed.

Lemma strict_eq_str_true (v : JSValue) (s : string) :
  strict_eq_str v s = true <-> v = JStr s.
Proof.
  destruct v; cbn; try (split; [discriminate | congruence]).
  rewrite String.eqb_eq. split; congruence.
Qed.

(** The role of a record is not touched by dropping its password. *)
Lemma role_after_select (doc : Document) (s : string) :
  strict_eq_str (field (select_without "password" doc) "role") s = true
  <-> doc !! "role" = Some (JStr s).
Proof.
  rewrite strict_eq_str_true. unfold field, select_without.
  rewrite lookup_delete_ne by done.
  destruct (doc !! "role") as [v|]; cbn; split; congruence.
Qed.

(** Serialisation drops properties, it never adds one. *)
Lemma keys_on_wire (v : JSValue) (k : string) :
  k ∈ keys (on_wire v) -> k ∈ keys v.
Proof.
  destruct v as [| | | | |items|props]; cbn; try done.
  induction props as [|[k' x] props IH]; cbn; [done|].
  rewrite fmap_app, elem_of_app, elem_of_cons. intros [Hk|Hk].
  - left. destruct x; cbn in Hk; try (by apply elem_of_nil in Hk);
      by apply list_elem_of_singleton in Hk.
  - right. by apply IH.
Qed.

(** Shows that a literal key is not in a literal list. *)
Ltac not_member H :=
  repeat (apply elem_of_cons in H as [H|H]; [discriminate H|]);
  by apply elem_of_nil in H.

(** Settles [k ∈ l <-> P] for a literal [k] and [l], given [b = true <-> P]
    for a boolean [b] that has been evaluated. *)
Ltac member_iff H :=
  split;
  [ intros Hin; first [ by apply H | exfalso; not_member Hin ]
  | intros HP; first [ by repeat constructor | by apply H in HP ] ].

(** C6: a successful response carries the projection of the stored record
    without its password: no [password] key, and the same projection
    whatever password is stored; [pharmacyName] and [licenseNumber] are
    among its keys exactly when the stored role is [pharmacy], [firstName]
    and [vehicleType] exactly when it is [delivery]; and serialisation adds
    no key. *)
Theorem projection_shaped_by_role (db : Store) (req_user : TokenPayload) (r : Sent) :
  getMe db req_user = Responded r ->
  ok (received r) = true ->
  exists (doc : Document) (user : JSValue),
    findById db (userId req_user) = inr (Some doc)
    /\ user = projection (select_without "password" doc)
    /\ r = successResponse "User profile retrieved" (JObj [("user", user)])
    /\ ("password" ∉ keys user)
    /\ (forall h : JSValue,
          projection (select_without "password" (<["password" := h]> doc)) = user)
    /\ (forall k : string,
          k ∈ ["pharmacyName"; "licenseNumber"] ->
          (k ∈ keys user <-> doc !! "role" = Some (JStr "pharmacy")))
    /\ (forall k : string,
          k ∈ ["firstName"; "vehicleType"] ->
          (k ∈ keys user <-> doc !! "role" = Some (JStr "delivery")))
    /\ (forall k : string, k ∈ keys (on_wire user) -> k ∈ keys user).
Proof.
  destruct db as [users|e]; [|discriminate].
  destruct (users !! userId req_user) as [doc|] eqn:Hdoc.
  2: { rewrite (getMe_missing _ _ Hdoc). intros [= <-]. discriminate. }
  rewrite (getMe_found _ _ _ Hdoc). intros [= <-] _.
  exists doc, (projection (select_without "password" doc)).
  pose proof (role_after_select doc "pharmacy") as Hpharmacy.
  pose proof (role_after_select doc "delivery") as Hdelivery.
  split; [cbn; by rewrite Hdoc|]. do 2 (split; [reflexivity|]).
  split; [|split; [|split; [|split]]].
  - rewrite keys_projection. intros Hin.
    destruct (strict_eq_str _ "pharmacy"), (strict_eq_str _ "delivery");
      not_member Hin.
  - intros h. unfold select_without. by rewrite delete_insert_eq.
  - intros k Hk. rewrite keys_projection.
    destruct (strict_eq_str _ "pharmacy"), (strict_eq_str _ "delivery");
      repeat (apply elem_of_cons in Hk as [->|Hk]; [member_iff Hpharmacy|]);
      by apply elem_of_nil in Hk.
  - intros k Hk. rewrite keys_projection.
    destruct (strict_eq_str _ "pharmacy"), (strict_eq_str _ "delivery");
      repeat (apply elem_of_cons in Hk as [->|Hk]; [member_iff Hdelivery|]);
      by apply elem_of_nil in Hk.
  - apply keys_on_wire.
Qed.

(** C5: a credential that the middleware accepts but whose identifier has
    no record in the store is rejected: the endpoint answers 404 with a
    body that carries no data, whatever else the credential embeds; and a
    gate that receives this answer empties the storage, the credential
    with it, and redirects. *)
Theorem missing_identity_rejected {Request : Type}
    (middleware : Request -> Sent + TokenPayload)
    (users : gmap string Document) (req : Request) (req_user : TokenPayload) :
  middleware req = inr req_user ->
  users !! userId req_user = None ->
  auth_me middleware (Online users) req = Responded not_found
  /\ rejects not_found
  /\ get_prop (payload not_found) "data" = inr JUndefined
  /\ (forall other : TokenPayload,
        userId other = userId req_user ->
        getMe (Online users) other = Responded not_found)
  /\ (forall (BASE_URL EXPECTED_ROLE : string) (stringify : JSValue -> string)
             (net : Network) (room : Quota) (st : gmap string string)
             (token : string),
        truthy (st !! "token") = Some token ->
        net (endpoint BASE_URL) (bearer token) = Fulfilled (received not_found) ->
        storage (load BASE_URL EXPECTED_ROLE stringify net room st) = ∅
        /\ outcome (load BASE_URL EXPECTED_ROLE stringify net room st)
           = Redirecting).
Proof.
  intros Hverified Hmissing. unfold auth_me. rewrite Hverified.
  split; [by apply getMe_missing|]. do 2 (split; [reflexivity|]).
  split.
  - intros other Hid. apply getMe_missing. by rewrite Hid.
  - intros BASE_URL EXPECTED_ROLE stringify net room st token Htoken Hnet.
    unfold outcome. walk_by load_path. done.
Qed.





End EndpointFacts.

(** * Worked examples *)

Import Server Sample.

(** The pharmacist opens a pharmacy page: authorized, the profile cached. *)
Example pharmacist_on_pharmacy_page :
  trace (visit "pharmacy" network (logged_in "credential-of-u1"))
  = [Called (GetItem "token");
     Called (Fetch "http://localhost:5000/api/auth/me" "Bearer credential-of-u1");
     Called (ReadJson answer);
     Called (SetItem "userCache" (stringify profile))]
  /\ outcome (visit "pharmacy" network (logged_in "credential-of-u1")) = Authorized.
Proof. vm_compute. done. Qed.

(** The pharmacist opens an admin page: denied with an alert. *)
Example pharmacist_on_admin_page :
  trace (visit "admin" network (logged_in "credential-of-u1"))
  = [Called (GetItem "token");
     Called (Fetch "http://localhost:5000/api/auth/me" "Bearer credential-of-u1");
     Called (ReadJson answer);
     Called (Alert "Access denied. admin role required.");
     Called Clear;
     Called (Replace "login.html")]
  /\ storage (visit "admin" network (logged_in "credential-of-u1")) = ∅.
Proof. vm_compute. done. Qed.

(** The server cannot be reached: the error is logged, the storage
    emptied, the page replaced. *)
Example pharmacist_offline :
  visit "pharmacy" offline (logged_in "credential-of-u1")
  = {| storage := ∅;
       trace := [Called (GetItem "token");
                 Called (Fetch "http://localhost:5000/api/auth/me"
                           "Bearer credential-of-u1");
                 Called (ConsoleError "Auth error:" NetworkError);
                 Called Clear;
                 Called (Replace "login.html")] |}.
Proof. vm_compute. reflexivity. Qed.

(** An account deleted after its credential was issued. *)
Example deleted_account :
  auth_me middleware (Online users) (Some "credential-of-u2")
  = Responded (errorResponse "User not found" 404)
  /\ auth_me middleware (Online users) (Some "stale")
     = Responded (errorResponse "Unauthenticated" 401).
Proof. vm_compute. done. Qed.


(** The request of the pharmacist is answered with [answer]; the user and
    the role the gate reads from it. *)
Example pharmacist_answer :
  network (endpoint base_url) (bearer "credential-of-u1") = Fulfilled answer
  /\ read_user envelope = inr (profile, JStr "pharmacy").
Proof. vm_compute. done. Qed.

(** C1, the scenario of the edited cache: a stale credential and a cache
    edited to say [admin]. *)
Lemma cache_never_decides_witness :
  (forall k : string,
      k <> "userCache" ->
      <["userCache" := "{role:admin}"]> (logged_in "stale") !! k
      = logged_in "stale" !! k)
  /\ outcome (visit "admin" network
                (<["userCache" := "{role:admin}"]> (logged_in "stale")))
     = outcome (visit "admin" network (logged_in "stale"))
  /\ trace (visit "admin" network
              (<["userCache" := "{role:admin}"]> (logged_in "stale")))
     = trace (visit "admin" network (logged_in "stale"))
  /\ (forall k : string,
        Called (GetItem k)
          ∈ trace (visit "admin" network
                     (<["userCache" := "{role:admin}"]> (logged_in "stale"))) ->
        k = "token").
Proof.
  assert (Hsame : forall k : string,
             k <> "userCache" ->
             <["userCache" := "{role:admin}"]> (logged_in "stale") !! k
             = logged_in "stale" !! k)
    by (intros k Hk; by rewrite lookup_insert_ne).
  split; [exact Hsame|].
  exact (cache_never_decides base_url "admin" stringify network unlimited _ _ Hsame).
Defined.

(** C7, after a logout: only a left-over cache in the storage. *)
Lemma absent_credential_redirects_witness :
  ({[ "userCache" := "{role:admin}" ]} : gmap string string) !! "token" = None
  /\ outcome (visit "admin" network {[ "userCache" := "{role:admin}" ]})
     = Redirecting
  /\ trace (visit "admin" network {[ "userCache" := "{role:admin}" ]})
     = [Called (GetItem "token"); Called (Replace login_page)]
  /\ count is_fetch (trace (visit "admin" network {[ "userCache" := "{role:admin}" ]}))
     = 0
  /\ storage (visit "admin" network {[ "userCache" := "{role:admin}" ]})
     = {[ "userCache" := "{role:admin}" ]}.
Proof.
  split; [reflexivity|].
  apply (absent_credential_redirects base_url "admin" stringify network unlimited).
  reflexivity.
Defined.

(** C8, an expired credential. *)
Lemma rejection_clears_and_redirects_witness :
  truthy (logged_in "stale" !! "token") = Some "stale"
  /\ storage (visit "pharmacy" network (logged_in "stale")) !! "token" = None
  /\ storage (visit "pharmacy" network (logged_in "stale")) !! "userCache" = None
  /\ outcome (visit "pharmacy" network (logged_in "stale")) = Redirecting
  /\ count is_fetch (trace (visit "pharmacy" network (logged_in "stale"))) = 1.
Proof.
  split; [reflexivity|].
  apply (rejection_clears_and_redirects base_url "pharmacy" stringify network unlimited
           (logged_in "stale") "stale").
  - reflexivity.
  - vm_compute. reflexivity.
Defined.

(** C9, the pharmacist on a pharmacy page, in a browser with room. *)
Lemma matching_role_authorizes_witness :
  outcome (visit "pharmacy" network (logged_in "credential-of-u1")) = Authorized
  /\ storage (visit "pharmacy" network (logged_in "credential-of-u1"))
     = <["userCache" := stringify profile]> (logged_in "credential-of-u1")
  /\ storage (visit "pharmacy" network (logged_in "credential-of-u1")) !! "token"
     = logged_in "credential-of-u1" !! "token"
  /\ count is_replace
       (trace (visit "pharmacy" network (logged_in "credential-of-u1"))) = 0.
Proof.
  assert (Htoken : truthy (logged_in "credential-of-u1" !! "token")
                   = Some "credential-of-u1") by reflexivity.
  assert (Hnet : network (endpoint base_url) (bearer "credential-of-u1")
                 = Fulfilled answer) by (vm_compute; reflexivity).
  assert (Huser : read_user envelope = inr (profile, JStr "pharmacy"))
    by (vm_compute; reflexivity).
  exact (matching_role_authorizes base_url "pharmacy" stringify network unlimited
           (logged_in "credential-of-u1") "credential-of-u1" answer envelope
           profile (JStr "pharmacy") Htoken Hnet eq_refl eq_refl Huser eq_refl).
Defined.

(** C9 as stated fails: the pharmacist on a pharmacy page, in a browser
    whose storage has room for a hundred characters.  The endpoint answers
    with success and the role is the required one, but the profile does not
    fit, and the gate ends up redirecting, with the credential gone. *)
Lemma full_storage_turns_away :
  truthy (logged_in "credential-of-u1" !! "token") = Some "credential-of-u1"
  /\ network (endpoint base_url) (bearer "credential-of-u1") = Fulfilled answer
  /\ ok answer = true
  /\ body answer = Some envelope
  /\ read_user envelope = inr (profile, JStr "pharmacy")
  /\ strict_eq_str (JStr "pharmacy") "pharmacy" = true
  /\ within 100 (cached stringify profile (logged_in "credential-of-u1")) = false
  /\ outcome (visit_within 100 "pharmacy" network (logged_in "credential-of-u1"))
     = Redirecting
  /\ storage (visit_within 100 "pharmacy" network (logged_in "credential-of-u1"))
     = ∅
  /\ existsb is_replace
       (trace (visit_within 100 "pharmacy" network (logged_in "credential-of-u1")))
     = true.
Proof. vm_compute. done. Qed.

(** C4, the pharmacist on an admin page. *)
Lemma role_mismatch_denied_witness :
  outcome (visit "admin" network (logged_in "credential-of-u1")) = Redirecting
  /\ trace (visit "admin" network (logged_in "credential-of-u1"))
     = fetched base_url "credential-of-u1"
       ++ [Called (ReadJson answer); Called (Alert (denial_message "admin"));
           Called Clear; Called (Replace login_page)]
  /\ storage (visit "admin" network (logged_in "credential-of-u1")) !! "token"
     = None
  /\ (forall st' : gmap string string,
        existsb is_alert (trace (visit "admin" network st')) = true
        <-> exists t r',
            path_of base_url "admin" network (st' !! "token") = RoleDenied t r').
Proof.
  apply (role_mismatch_denied base_url "admin" stringify network unlimited
           (logged_in "credential-of-u1") "credential-of-u1" answer envelope
           profile (JStr "pharmacy"));
    vm_compute; reflexivity.
Defined.

(** C10, the pharmacist on an admin page, with other state in the storage:
    all of it is gone. *)
Lemma rejection_clears_whole_storage_witness :
  Called Clear
    ∈ trace (visit "admin" network
               (<["cart" := "[aspirin]"]> (logged_in "credential-of-u1")))
  /\ (forall k : string,
        storage (visit "admin" network
                   (<["cart" := "[aspirin]"]> (logged_in "credential-of-u1")))
          !! k = None).
Proof.
  exact (rejection_clears_whole_storage base_url "admin" stringify network unlimited
           (<["cart" := "[aspirin]"]> (logged_in "credential-of-u1"))).
Defined.

(** C3, the pharmacist on a pharmacy page. *)
Lemma authorized_only_after_verification_witness :
  outcome (visit "pharmacy" network (logged_in "credential-of-u1")) = Authorized
  /\ exists (token : string) (r : HttpResponse) (data user role : JSValue),
      truthy (logged_in "credential-of-u1" !! "token") = Some token
      /\ network (endpoint base_url) (bearer token) = Fulfilled r
      /\ ok r = true
      /\ body r = Some data
      /\ read_user data = inr (user, role)
      /\ strict_eq_str role "pharmacy" = true
      /\ trace (visit "pharmacy" network (logged_in "credential-of-u1"))
         = fetched base_url token
           ++ [Called (ReadJson r); Called (SetItem "userCache" (stringify user))]
      /\ state_of (start network unlimited (page "pharmacy")
                     (fresh (logged_in "credential-of-u1"))) = Checking
      /\ unlimited (cached stringify user (logged_in "credential-of-u1")) = true.
Proof.
  assert (Hgranted :
    outcome (visit "pharmacy" network (logged_in "credential-of-u1")) = Authorized)
    by (vm_compute; reflexivity).
  split; [exact Hgranted|].
  exact (authorized_only_after_verification base_url "pharmacy" stringify network unlimited
           (logged_in "credential-of-u1") Hgranted).
Defined.

(** C3 as stated fails: with an expired credential in store the document is
    rendered right after the request is sent, and the gate, resumed later,
    ends [Redirecting]; it is never [Authorized]. *)
Lemma rendered_while_checking :
  trace (view_load network unlimited (page "admin") (fresh (logged_in "stale")))
  = [Called (GetItem "token");
     Called (Fetch "http://localhost:5000/api/auth/me" "Bearer stale");
     Rendered;
     Called Clear;
     Called (Replace "login.html")]
  /\ state_of (start network unlimited (page "admin") (fresh (logged_in "stale"))) = Checking
  /\ ~ verify_then_render
       (trace (view_load network unlimited (page "admin") (fresh (logged_in "stale")))).
Proof.
  split; [vm_compute; reflexivity|]. split; [vm_compute; reflexivity|].
  apply (render_not_blocked base_url "admin" stringify network unlimited
           (logged_in "stale") "stale").
  reflexivity.
Qed.

(** C5, the deleted account [u2]. *)
Lemma missing_identity_rejected_witness :
  middleware (Some "credential-of-u2")
  = inr {| userId := "u2"; email := "jane@example.com"; role := "admin" |}
  /\ users !! "u2" = None
  /\ auth_me middleware (Online users) (Some "credential-of-u2")
     = Responded (errorResponse "User not found" 404)
  /\ rejects (errorResponse "User not found" 404).
Proof.
  split; [reflexivity|]. split; [reflexivity|].
  pose proof (missing_identity_rejected middleware users
                (Some "credential-of-u2")
                {| userId := "u2"; email := "jane@example.com"; role := "admin" |}
                eq_refl eq_refl) as (Hresponse & Hrejects & _).
  exact (conj Hresponse Hrejects).
Defined.

(** C6, the stored pharmacist. *)
Lemma projection_shaped_by_role_witness :
  getMe (Online users)
    {| userId := "u1"; email := "john@example.com"; role := "pharmacy" |}
  = Responded (successResponse "User profile retrieved"
                 (JObj [("user", projection (select_without "password" pharmacist))]))
  /\ exists (doc : Document) (user : JSValue),
      findById (Online users) "u1" = inr (Some doc)
      /\ user = projection (select_without "password" doc)
      /\ ("password" ∉ keys user)
      /\ ("pharmacyName" ∈ keys user <-> doc !! "role" = Some (JStr "pharmacy"))
      /\ ("vehicleType" ∈ keys user <-> doc !! "role" = Some (JStr "delivery")).
Proof.
  split; [reflexivity|].
  destruct (projection_shaped_by_role (Online users)
              {| userId := "u1"; email := "john@example.com"; role := "pharmacy" |}
              (successResponse "User profile retrieved"
                 (JObj [("user", projection (select_without "password" pharmacist))]))
              eq_refl eq_refl)
    as (doc & user & Hdoc & Huser & _ & Hsecret & _ & Hpharmacy & Hdelivery & _).
  exists doc, user. repeat split; try done.
  - by apply Hpharmacy; repeat constructor.
  - by apply Hpharmacy; repeat constructor.
  - by apply Hdelivery; repeat constructor.
  - by apply Hdelivery; repeat constructor.
Defined.

(** * Further properties of the client gate *)

Section GateMore.

Context (BASE_URL EXPECTED_ROLE : string) (stringify : JSValue -> string).
Context (net : Network) (room : Quota).

Local Abbreviation a_load := (load BASE_URL EXPECTED_ROLE stringify net room).
Local Abbreviation a_path := (path_of BASE_URL EXPECTED_ROLE net).

(** X1: no exception escapes the gate.  Whatever is in the storage,
    whatever the network does and whether or not the storage has room for
    the cache, the [catch] takes every exception thrown after the request,
    and the promise of the async function fulfils. *)
Theorem gate_never_throws (w : World) :
  (run net room (gate BASE_URL EXPECTED_ROLE stringify) w).1 = Normal ().
Proof. by rewrite run_gate. Qed.

(** X2: an empty string in the [token] slot counts as no credential: the
    gate redirects at once, sends no request and leaves the storage as it
    is. *)
Theorem empty_token_is_no_credential (st : gmap string string) :
  st !! "token" = Some "" ->
  a_load st
  = {| storage := st;
       trace := [Called (GetItem "token"); Called (Replace login_page)] |}
  /\ count is_fetch (trace (a_load st)) = 0
  /\ outcome (a_load st) = Redirecting.
Proof. intros Hempty. unfold outcome. walk_by load_path. done. Qed.

(** X3: a success status does not authorize by itself.  When the body is
    not JSON, or [data.data.user.role] cannot be read from it, the error
    is logged, the storage is emptied and the gate redirects; nothing is
    cached and no alert is shown. *)
Theorem unreadable_answer_fails_closed (st : gmap string string)
    (token : string) (r : HttpResponse) :
  truthy (st !! "token") = Some token ->
  net (endpoint BASE_URL) (bearer token) = Fulfilled r ->
  ok r = true ->
  match body r with
  | None => True
  | Some data => exists e : Exn, read_user data = inl e
  end ->
  exists e : Exn,
    a_load st
    = {| storage := ∅;
         trace := fetched BASE_URL token
                  ++ [Called (ReadJson r); Called (ConsoleError "Auth error:" e);
                      Called Clear; Called (Replace login_page)] |}
    /\ outcome (a_load st) = Redirecting
    /\ existsb is_alert (trace (a_load st)) = false
    /\ existsb is_cache_write (trace (a_load st)) = false.
Proof.
  intros Htoken Hnet Hok Hbody. unfold outcome. walk_by load_path.
  destruct (body r) as [data|]; [destruct Hbody as [e He]; rewrite He|];
    eexists; cbn; done.
Qed.

(** X4: a load sends at most one request, and a request that is sent goes
    to the endpoint and carries the stored credential, nothing else. *)
Theorem one_request_with_stored_credential (st : gmap string string) :
  count is_fetch (trace (a_load st)) <= 1
  /\ (forall url authorization : string,
        Called (Fetch url authorization) ∈ trace (a_load st) ->
        url = endpoint BASE_URL
        /\ exists token : string,
            st !! "token" = Some token /\ token <> ""
            /\ authorization = bearer token).
Proof.
  rewrite load_path. unfold path_of.
  destruct (st !! "token") as [[|a token]|] eqn:Hitem; cbn.
  { split; [lia|]. intros url authorization H.
    repeat (apply elem_of_cons in H as [H|H]; [discriminate H|]).
    by apply elem_of_nil in H. }
  2: { split; [lia|]. intros url authorization H.
       repeat (apply elem_of_cons in H as [H|H]; [discriminate H|]).
       by apply elem_of_nil in H. }
  assert (Hsent : forall rest : list Event,
             existsb is_fetch rest = false ->
             forall url authorization : string,
               Called (Fetch url authorization)
                 ∈ fetched BASE_URL (String a token) ++ rest ->
               url = endpoint BASE_URL
               /\ exists t : string,
                   Some (String a token) = Some t /\ t <> ""
                   /\ authorization = bearer t).
  { intros rest Hrest url authorization H.
    apply elem_of_app in H as [H|H].
    - repeat (apply elem_of_cons in H as [H|H];
              [try discriminate H; injection H as -> ->; eauto|]).
      by apply elem_of_nil in H.
    - exfalso. apply list_elem_of_In in H.
      assert (existsb is_fetch rest = true) as Hyes
        by (apply existsb_exists; eexists; split; [exact H|reflexivity]).
      congruence. }
  destruct (net (endpoint BASE_URL) (bearer (String a token))) as [r|e];
    [destruct (ok r); cbn;
     [destruct (body r) as [data|];
      [destruct (read_user data) as [e|[user r']];
       [|destruct (strict_eq_str r' EXPECTED_ROLE); cbn [path_trace];
         [destruct (room (cached stringify user st))|]]|]|]|];
    (split; [cbn; lia | by apply Hsent]).
Qed.

(** A load either finds a matching role and room for the cache, or it
    redirects and leaves no usable credential. *)
Lemma load_verdict (st : gmap string string) :
  (exists (token : string) (r : HttpResponse) (user : JSValue),
      a_path (st !! "token") = RoleMatched token r user
      /\ truthy (st !! "token") = Some token
      /\ room (cached stringify user st) = true)
  \/ (outcome (a_load st) = Redirecting
      /\ truthy (storage (a_load st) !! "token") = None).
Proof.
  unfold outcome. rewrite load_path. unfold path_of.
  destruct (truthy (st !! "token")) as [token|] eqn:Htoken; cbn.
  2: { right. by rewrite Htoken. }
  destruct (net (endpoint BASE_URL) (bearer token)) as [r|e]; cbn;
    [|by right].
  destruct (ok r); cbn; [|by right].
  destruct (body r) as [data|]; cbn; [|by right].
  destruct (read_user data) as [e|[user r']]; cbn; [by right|].
  destruct (strict_eq_str r' EXPECTED_ROLE); cbn; [|by right].
  unfold cached. destruct (room _) eqn:Hroom; cbn; [|by right].
  left. eauto 10.
Qed.

(** X5: a credential is left in the storage by a load exactly when the load
    authorizes.  Every load that redirects leaves no usable credential
    behind. *)
Theorem credential_survives_iff_authorized (st : gmap string string) :
  is_Some (truthy (storage (a_load st) !! "token"))
  <-> outcome (a_load st) = Authorized.
Proof.
  destruct (load_verdict st)
    as [(token & r & user & Hpath & Htoken & Hroom)|[Hout Hnone]].
  - unfold outcome. rewrite load_path, Hpath. cbn. rewrite Hroom. cbn.
    unfold cached. rewrite lookup_insert_ne by done.
    rewrite Htoken. split; [done|eauto].
  - rewrite Hout, Hnone. split; [by intros [? ?]|done].
Qed.

(** X6: a load that redirects logs the client out.  The next load, of any
    page, against any network and whatever the quota, finds no credential:
    it redirects at once, sends no request and changes nothing. *)
Theorem redirect_logs_out (st : gmap string string)
    (EXPECTED_ROLE' : string) (net' : Network) (room' : Quota) :
  outcome (a_load st) = Redirecting ->
  load BASE_URL EXPECTED_ROLE' stringify net' room' (storage (a_load st))
  = {| storage := storage (a_load st);
       trace := [Called (GetItem "token"); Called (Replace login_page)] |}.
Proof.
  intros Hredirect.
  destruct (load_verdict st)
    as [(token & r & user & Hpath & _ & Hroom)|[_ Hnone]].
  - unfold outcome in Hredirect. rewrite load_path, Hpath in Hredirect.
    cbn in Hredirect. rewrite Hroom in Hredirect. discriminate Hredirect.
  - walk_by load_path. done.
Qed.

(** X7: loading twice against the same network is loading once, as far as
    the storage and the verdict go: the second load takes the storage the
    first one left, ends in the same state and leaves the same storage. *)
Theorem load_twice (st : gmap string string) :
  storage (a_load (storage (a_load st))) = storage (a_load st)
  /\ outcome (a_load (storage (a_load st))) = outcome (a_load st).
Proof.
  destruct (load_verdict st)
    as [(token & r & user & Hpath & _ & Hroom)|[Hout Hnone]].
  - assert (Hagain : cached stringify user (cached stringify user st)
                     = cached stringify user st)
      by apply insert_insert_eq.
    unfold outcome. rewrite (load_path _ _ _ _ _ (storage (a_load st))).
    rewrite (load_path _ _ _ _ _ st), Hpath. cbn. rewrite Hroom. cbn.
    assert (Hkept : cached stringify user st !! "token" = st !! "token")
      by (unfold cached; by rewrite lookup_insert_ne).
    rewrite Hkept, Hpath. cbn. rewrite Hagain, Hroom. done.
  - rewrite Hout. unfold outcome. walk_by load_path. done.
Qed.

(** X15: only a verified user is ever cached.  Whatever a load writes to
    the storage, it writes to [userCache], and what it writes is the text of
    an object whose own [role] is the string the page requires; a role that
    is not a string, or a user that is not an object, is never cached. *)
Theorem cache_holds_verified_user (st : gmap string string) (k v : string) :
  Called (SetItem k v) ∈ trace (a_load st) ->
  k = "userCache"
  /\ exists props : list (string * JSValue),
      v = stringify (JObj props)
      /\ own_prop "role" props = Some (JStr EXPECTED_ROLE).
Proof.
  rewrite load_path. unfold path_of.
  assert (Hnone : forall (pre : list Event) (e1 e2 : Event),
             (forall k' v', e1 <> Called (SetItem k' v')) ->
             (forall k' v', e2 <> Called (SetItem k' v')) ->
             Called (SetItem k v) ∈ pre ++ e1 :: e2 :: bail_out ->
             Called (SetItem k v) ∈ pre).
  { intros pre e1 e2 H1 H2 Hin. apply elem_of_app in Hin as [Hin|Hin]; [done|].
    apply elem_of_cons in Hin as [Hin|Hin]; [by destruct (H1 k v)|].
    apply elem_of_cons in Hin as [Hin|Hin]; [by destruct (H2 k v)|].
    unfold bail_out in Hin.
    repeat (apply elem_of_cons in Hin as [Hin|Hin]; [discriminate Hin|]).
    by apply elem_of_nil in Hin. }
  destruct (truthy (st !! "token")) as [token|]; cbn [path_trace].
  2: { intros H. repeat (apply elem_of_cons in H as [H|H]; [discriminate H|]).
       by apply elem_of_nil in H. }
  assert (Hsent : Called (SetItem k v) ∈ fetched BASE_URL token -> False).
  { intros H. unfold fetched in H.
    repeat (apply elem_of_cons in H as [H|H]; [discriminate H|]).
    by apply elem_of_nil in H. }
  destruct (net (endpoint BASE_URL) (bearer token)) as [r|e]; cbn [path_trace].
  2: { intros H. apply elem_of_app in H as [H|H]; [by destruct Hsent|].
       repeat (apply elem_of_cons in H as [H|H]; [discriminate H|]).
       by apply elem_of_nil in H. }
  destruct (ok r); cbn [negb path_trace].
  2: { intros H. apply elem_of_app in H as [H|H]; [by destruct Hsent|].
       repeat (apply elem_of_cons in H as [H|H]; [discriminate H|]).
       by apply elem_of_nil in H. }
  destruct (body r) as [data|]; cbn [path_trace].
  2: { intros H. by apply Hnone in H; [destruct Hsent|..]. }
  destruct (read_user data) as [e|[user r']] eqn:Hread; cbn [path_trace].
  { intros H. by apply Hnone in H; [destruct Hsent|..]. }
  destruct (strict_eq_str r' EXPECTED_ROLE) eqn:Hrole; cbn [path_trace].
  2: { intros H. by apply Hnone in H; [destruct Hsent|..]. }
  intros H. apply elem_of_app in H as [H|H]; [by destruct Hsent|].
  apply elem_of_cons in H as [H|H]; [discriminate H|].
  apply elem_of_cons in H as [H|H].
  2: { destruct (room _); [by apply elem_of_nil in H|].
       unfold bail_out in H.
       repeat (apply elem_of_cons in H as [H|H]; [discriminate H|]).
       by apply elem_of_nil in H. }
  injection H as -> ->.
  split; [done|].
  apply strict_eq_str_true in Hrole as ->.
  unfold read_user in Hread.
  destruct (get_prop data "data") as [e|inner]; [discriminate|].
  destruct (get_prop inner "user") as [e|user']; [discriminate|].
  destruct (get_prop user' "role") as [e|role'] eqn:Hprop; [discriminate|].
  injection Hread as -> ->.
  destruct user as [| | | | | |props]; try discriminate Hprop.
  exists props. split; [done|].
  cbn in Hprop.
  destruct (own_prop "role" props) as [x|]; cbn in Hprop;
    [by injection Hprop as ->|discriminate Hprop].
Qed.

End GateMore.

(** * Further properties of the session endpoint *)

(** Refutes the membership [H] of a literal key in a literal list. *)
Ltac no_such_key H :=
  repeat (apply elem_of_cons in H as [H|H]; [discriminate H|]);
  by apply elem_of_nil in H.

Section EndpointMore.

Import Server.

(** The projection has no key twice. *)
Lemma NoDup_keys_projection (d : Document) : NoDup (keys (projection d)).
Proof.
  rewrite keys_projection.
  destruct (strict_eq_str _ "pharmacy"), (strict_eq_str _ "delivery");
    by apply (bool_decide_unpack _).
Qed.

(** A property that is looked up is one of the keys. *)
Lemma own_prop_key (k : string) (props : list (string * JSValue)) (v : JSValue) :
  own_prop k props = Some v -> k ∈ props.*1.
Proof.
  revert v. induction props as [|[k' x] props IH]; intros v; cbn; [done|].
  destruct (own_prop k props) as [v'|].
  - intros _. right. by apply (IH v').
  - destruct (String.eqb_spec k' k) as [->|]; [left|done].
Qed.

(** Reading a property back from a serialised object without duplicate
    keys. *)
Lemma own_prop_on_wire (k : string) (props : list (string * JSValue)) :
  NoDup props.*1 ->
  forall sent : list (string * JSValue),
    on_wire (JObj props) = JObj sent ->
    own_prop k sent = own_prop k props ≫= sent_as.
Proof.
  intros Hnodup sent [= <-]. induction props as [|[k' x] props IH]; [done|].
  apply NoDup_cons in Hnodup as [Hfresh Hnodup]. specialize (IH Hnodup).
  cbn in *.
  destruct (own_prop k props) as [v|] eqn:Hrest.
  - assert (k' <> k) as Hne
      by (intros ->; by apply Hfresh, (own_prop_key _ _ v)).
    cbn in IH. destruct x; cbn; rewrite ?IH; try done;
      destruct (sent_as v); try done;
      by destruct (String.eqb_spec k' k).
  - cbn in IH. destruct x; cbn; rewrite ?IH; try done;
      by destruct (String.eqb_spec k' k).
Qed.

(** The role the projection carries is the role of the record. *)
Lemma role_of_projection (d : Document) :
  own_prop "role" (match projection d with JObj props => props | _ => [] end)
  = Some (field d "role").
Proof.
  unfold projection.
  destruct (strict_eq_str _ "pharmacy"), (strict_eq_str _ "delivery");
    reflexivity.
Qed.

(** X8: the answer is made from the store, not from the token.  For a
    record that exists, the role in the answer is the role of the record,
    and the answer is the same for every token payload with this identifier,
    whatever role and email the token embeds. *)
Theorem answer_trusts_store_only (users : gmap string Document)
    (req_user : TokenPayload) (doc : Document) :
  users !! userId req_user = Some doc ->
  exists user : JSValue,
    getMe (Online users) req_user
    = Responded (successResponse "User profile retrieved" (JObj [("user", user)]))
    /\ get_prop user "role" = inr (default JUndefined (doc !! "role"))
    /\ (forall other : TokenPayload,
          userId other = userId req_user ->
          getMe (Online users) other = getMe (Online users) req_user).
Proof.
  intros Hdoc. eexists. split; [by apply getMe_found|]. split.
  - pose proof (role_of_projection (select_without "password" doc)) as Hrole.
    unfold projection in *. cbn in *. rewrite Hrole.
    unfold field, select_without. by rewrite lookup_delete_ne.
  - intros other Hid. unfold getMe. by rewrite Hid.
Qed.

(** What the gate reads from the answer for a record [d]: the serialised
    projection and its role. *)
Lemma read_user_answer (d : Document) :
  read_user (on_wire (payload (successResponse "User profile retrieved"
                                 (JObj [("user", projection d)]))))
  = inr (on_wire (projection d),
         default JUndefined (sent_as (field d "role"))).
Proof.
  pose proof (own_prop_on_wire "role" _ (NoDup_keys_projection d)) as Hrole.
  pose proof (role_of_projection d) as Hstored.
  unfold projection in *.
  set (props := _ ++ _) in *. cbn [keys] in Hrole.
  change (on_wire (payload (successResponse "User profile retrieved"
                              (JObj [("user", JObj props)]))))
    with (JObj [("success", JBool true);
                ("message", JStr "User profile retrieved");
                ("data", JObj [("user", on_wire (JObj props))])]).
  destruct (on_wire (JObj props)) as [| | | | | |sent] eqn:Hsent;
    try discriminate Hsent.
  specialize (Hrole sent eq_refl). rewrite Hstored in Hrole.
  unfold read_user. cbn. by rewrite Hrole.
Qed.

(** Serialisation keeps a role that is a string and makes no string of
    one that is not. *)
Lemma strict_eq_str_sent (v : JSValue) (s : string) :
  strict_eq_str (default JUndefined (sent_as v)) s = strict_eq_str v s.
Proof. by destruct v. Qed.

(** X9: client and server together.  When the endpoint answers a verified
    credential from an existing record and the gate receives that answer,
    the gate authorizes exactly when the role of the stored record is the
    role the page requires and the storage has room for the cache; what it
    then caches is the serialised projection of the record, which has no
    password. *)
Theorem gate_follows_stored_role (users : gmap string Document)
    (req_user : TokenPayload) (doc : Document) (r : Sent)
    (BASE_URL EXPECTED_ROLE : string) (stringify : JSValue -> string)
    (net : Network) (room : Quota) (st : gmap string string) (token : string) :
  users !! userId req_user = Some doc ->
  getMe (Online users) req_user = Responded r ->
  truthy (st !! "token") = Some token ->
  net (endpoint BASE_URL) (bearer token) = Fulfilled (received r) ->
  (outcome (load BASE_URL EXPECTED_ROLE stringify net room st) = Authorized
   <-> doc !! "role" = Some (JStr EXPECTED_ROLE)
       /\ room (cached stringify
                  (on_wire (projection (select_without "password" doc))) st)
          = true)
  /\ (outcome (load BASE_URL EXPECTED_ROLE stringify net room st) = Authorized ->
      storage (load BASE_URL EXPECTED_ROLE stringify net room st) !! "userCache"
      = Some (stringify (on_wire (projection (select_without "password" doc))))
      /\ "password" ∉ keys (on_wire (projection (select_without "password" doc)))).
Proof.
  intros Hdoc Hsent Htoken Hnet.
  rewrite (getMe_found _ _ _ Hdoc) in Hsent. injection Hsent as <-.
  pose proof (read_user_answer (select_without "password" doc)) as Hread.
  pose proof (role_after_select doc EXPECTED_ROLE) as Hrole.
  rewrite <- (strict_eq_str_sent _ EXPECTED_ROLE) in Hrole.
  assert (Hsecret :
    "password" ∉ keys (on_wire (projection (select_without "password" doc)))).
  { intros Hin. apply keys_on_wire in Hin. revert Hin.
    rewrite keys_projection.
    destruct (strict_eq_str _ "pharmacy"), (strict_eq_str _ "delivery");
      intros Hin; no_such_key Hin. }
  remember (on_wire (projection (select_without "password" doc))) as user
    eqn:Huser in *.
  clear Huser.
  unfold outcome. rewrite !load_path. unfold path_of.
  rewrite Htoken, Hnet.
  change (ok (received _)) with true. cbn [negb body received].
  rewrite Hread.
  destruct (strict_eq_str _ EXPECTED_ROLE); cbn.
  - destruct (room (cached stringify user st)); cbn.
    + split; [split; [intros _; split; [by apply Hrole|done]|done]|].
      intros _. split; [|done]. unfold cached. by rewrite lookup_insert_eq.
    + split; [split; [done|by intros [_ ?]]|done].
  - split; [split; [done|]|done].
    intros [Hyes _]. apply Hrole in Hyes. discriminate Hyes.
Qed.

End EndpointMore.

(** * Properties of the authentication module *)

Section AuthFacts.

Import Auth.

Context (BASE_URL : string) (stringify : JSValue -> string).
Context (net : Network) (room : Quota).

Local Abbreviation sent_with token :=
  [Called (GetItem "token"); Called (Fetch (me_url BASE_URL) (bearer token))].

(** The storage [cacheUser] asks for. *)
Local Abbreviation with_cache user st :=
  (<["userCache" := stored stringify user]> st).

(** Every way [fetchUser] can go, with what it leaves behind. *)
Lemma run_fetchUser (w : World) :
  run net room (fetchUser BASE_URL stringify) w
  = match truthy (storage w !! "token") with
    | None =>
        (Normal (Returned JNull),
         {| storage := storage w;
            trace := trace w ++ [Called (GetItem "token")] |})
    | Some token =>
        match net (me_url BASE_URL) (bearer token) with
        | Rejected e =>
            (Abrupt e,
             {| storage := storage w; trace := trace w ++ sent_with token |})
        | Fulfilled r =>
            if ok r then
              match body r with
              | None =>
                  (Abrupt SyntaxError,
                   {| storage := storage w;
                      trace := trace w ++ sent_with token ++ [Called (ReadJson r)] |})
              | Some data =>
                  match user_of data with
                  | inl e =>
                      (Abrupt e,
                       {| storage := storage w;
                          trace := trace w ++ sent_with token
                                   ++ [Called (ReadJson r)] |})
                  | inr user =>
                      (if room (with_cache user (storage w))
                       then Normal (Returned user)
                       else Abrupt QuotaExceededError,
                       {| storage := if room (with_cache user (storage w))
                                     then with_cache user (storage w)
                                     else storage w;
                          trace := trace w ++ sent_with token
                                   ++ [Called (ReadJson r);
                                       Called (SetItem "userCache"
                                                 (stored stringify user))] |})
                  end
              end
            else
              (Normal (Threw "Auth failed"),
               {| storage := storage w; trace := trace w ++ sent_with token |})
        end
    end.
Proof.
  destruct w as [st tr].
  unfold fetchUser, getToken, cacheUser, set_item, user_of. cbn.
  destruct (truthy (st !! "token")) as [token|]; cbn; [|settle_trace].
  destruct (net (me_url BASE_URL) (bearer token)) as [r|e]; cbn;
    [|settle_trace].
  destruct (ok r); cbn; [|settle_trace].
  destruct (body r) as [data|]; cbn; [|settle_trace].
  unfold prop.
  destruct (get_prop data "data") as [e|inner]; cbn; [settle_trace|].
  destruct (get_prop inner "user") as [e|user]; cbn; [settle_trace|].
  destruct (room _); settle_trace.
Qed.

Local Abbreviation fetched_user st :=
  (run net room (fetchUser BASE_URL stringify) (fresh st)).

(** X10: without a credential [fetchUser] returns [null]; it sends no
    request and leaves the storage as it is.  An empty string in the slot
    counts as no credential. *)
Theorem fetchUser_without_credential (st : gmap string string) :
  truthy (st !! "token") = None ->
  fetched_user st
  = (Normal (Returned JNull),
     {| storage := st; trace := [Called (GetItem "token")] |}).
Proof. intros Hnone. rewrite run_fetchUser. cbn. by rewrite Hnone. Qed.

(** X11: when the endpoint answers with a status that is not a success,
    [fetchUser] throws [Error("Auth failed")] without reading the body, and,
    unlike the page script, it leaves the whole storage as it is: the
    rejected credential and the cached user both stay. *)
Theorem fetchUser_rejected_keeps_storage (st : gmap string string)
    (token : string) (r : HttpResponse) :
  truthy (st !! "token") = Some token ->
  net (me_url BASE_URL) (bearer token) = Fulfilled r ->
  ok r = false ->
  fetched_user st
  = (Normal (Threw "Auth failed"),
     {| storage := st;
        trace := [Called (GetItem "token");
                  Called (Fetch (me_url BASE_URL) (bearer token))] |}).
Proof.
  intros Htoken Hnet Hok. rewrite run_fetchUser. cbn.
  by rewrite Htoken, Hnet, Hok.
Qed.

(** X12: when the endpoint answers with success and [data.data.user] can be
    read, [fetchUser] writes that user to the cache, whatever its role: no
    role is compared.  When the storage has room for it, the user is cached
    and returned and the credential stays; a body whose [data] has no [user]
    puts the word "undefined" in the cache.  When the storage has no room,
    [QuotaExceededError] escapes from [fetchUser] and the storage is left as
    it was. *)
Theorem fetchUser_caches_whatever_role (st : gmap string string)
    (token : string) (r : HttpResponse) (data user : JSValue) :
  truthy (st !! "token") = Some token ->
  net (me_url BASE_URL) (bearer token) = Fulfilled r ->
  ok r = true ->
  body r = Some data ->
  user_of data = inr user ->
  if room (<["userCache" := stored stringify user]> st)
  then (fetched_user st).1 = Normal (Returned user)
       /\ storage (fetched_user st).2 = <["userCache" := stored stringify user]> st
       /\ storage (fetched_user st).2 !! "token" = st !! "token"
       /\ (user = JUndefined ->
           storage (fetched_user st).2 !! "userCache" = Some "undefined")
  else (fetched_user st).1 = Abrupt QuotaExceededError
       /\ storage (fetched_user st).2 = st.
Proof.
  intros Htoken Hnet Hok Hbody Huser. rewrite run_fetchUser. cbn.
  rewrite Htoken, Hnet, Hok, Hbody, Huser. cbn.
  destruct (room _); cbn; [|done].
  repeat split; [by rewrite lookup_insert_ne|].
  intros ->. by rewrite lookup_insert_eq.
Qed.

(** X13: [fetchUser] never logs the client out.  Whatever the storage and
    the network, it sends at most one request, never clears the storage,
    never leaves the page and never alerts; the credential and every slot
    other than [userCache] keep their value. *)
Theorem fetchUser_never_logs_out (st : gmap string string) :
  (forall k : string,
      k <> "userCache" -> storage (fetched_user st).2 !! k = st !! k)
  /\ (Called Clear ∉ trace (fetched_user st).2)
  /\ existsb is_replace (trace (fetched_user st).2) = false
  /\ existsb is_alert (trace (fetched_user st).2) = false
  /\ count is_fetch (trace (fetched_user st).2) <= 1.
Proof.
  assert (Hquiet : forall tr : list Event,
             existsb (fun e => match e with
                               | Called Clear => true
                               | _ => false
                               end) tr = false ->
             Called Clear ∉ tr).
  { intros tr Hno Hin. apply list_elem_of_In in Hin.
    assert (existsb (fun e => match e with
                              | Called Clear => true
                              | _ => false
                              end) tr = true) as Hyes
      by (apply existsb_exists; eexists; split; [exact Hin|reflexivity]).
    congruence. }
  rewrite run_fetchUser. cbn.
  destruct (truthy (st !! "token")) as [token|]; cbn;
    [destruct (net (me_url BASE_URL) (bearer token)) as [r|e]; cbn;
     [destruct (ok r); cbn;
      [destruct (body r) as [data|]; cbn;
       [destruct (user_of data) as [e|user]; cbn;
        [|destruct (room _); cbn]|]|]|]|];
    repeat split; try done; try lia; try (by apply Hquiet).
  intros k Hk. by rewrite lookup_insert_ne.
Qed.


End AuthFacts.

(** * Further worked examples *)

(** X2: a storage whose credential was blanked. *)
Lemma empty_token_is_no_credential_witness :
  ({[ "token" := "" ]} : gmap string string) !! "token" = Some ""
  /\ visit "admin" network {[ "token" := "" ]}
     = {| storage := {[ "token" := "" ]};
          trace := [Called (GetItem "token"); Called (Replace login_page)] |}
  /\ count is_fetch (trace (visit "admin" network {[ "token" := "" ]})) = 0
  /\ outcome (visit "admin" network {[ "token" := "" ]}) = Redirecting.
Proof.
  split; [reflexivity|].
  apply (empty_token_is_no_credential base_url "admin" stringify network unlimited).
  reflexivity.
Defined.

(** X3: a success status over a body without [data.user]. *)
Lemma unreadable_answer_fails_closed_witness :
  exists e : Exn,
    visit "pharmacy" Faulty.no_user (logged_in "credential-of-u1")
    = {| storage := ∅;
         trace := fetched base_url "credential-of-u1"
                  ++ [Called (ReadJson
                                {| status := 200;
                                   body := Some (JObj [("success", JBool true);
                                                       ("data", JObj [])]) |});
                      Called (ConsoleError "Auth error:" e);
                      Called Clear; Called (Replace login_page)] |}
    /\ outcome (visit "pharmacy" Faulty.no_user (logged_in "credential-of-u1"))
       = Redirecting
    /\ existsb is_alert
         (trace (visit "pharmacy" Faulty.no_user (logged_in "credential-of-u1")))
       = false
    /\ existsb is_cache_write
         (trace (visit "pharmacy" Faulty.no_user (logged_in "credential-of-u1")))
       = false.
Proof.
  apply (unreadable_answer_fails_closed base_url "pharmacy" stringify
           Faulty.no_user unlimited (logged_in "credential-of-u1") "credential-of-u1"
           {| status := 200;
              body := Some (JObj [("success", JBool true); ("data", JObj [])]) |});
    try reflexivity.
  exists TypeError. reflexivity.
Defined.

(** X6: after an expired credential was turned away, the next page. *)
Lemma redirect_logs_out_witness :
  outcome (visit "admin" network (logged_in "stale")) = Redirecting
  /\ visit "pharmacy" network (storage (visit "admin" network (logged_in "stale")))
     = {| storage := storage (visit "admin" network (logged_in "stale"));
          trace := [Called (GetItem "token"); Called (Replace login_page)] |}.
Proof.
  assert (Hout : outcome (visit "admin" network (logged_in "stale")) = Redirecting)
    by (vm_compute; reflexivity).
  split; [exact Hout|].
  exact (redirect_logs_out base_url "admin" stringify network unlimited
           (logged_in "stale") "pharmacy" network unlimited Hout).
Defined.

(** X8: the stored pharmacist, asked for with a token that claims
    [admin]. *)
Lemma answer_trusts_store_only_witness :
  users !! "u1" = Some pharmacist
  /\ exists user : JSValue,
      getMe (Online users)
        {| userId := "u1"; email := "john@example.com"; role := "admin" |}
      = Responded (successResponse "User profile retrieved"
                     (JObj [("user", user)]))
      /\ get_prop user "role" = inr (JStr "pharmacy").
Proof.
  split; [reflexivity|].
  destruct (answer_trusts_store_only users
              {| userId := "u1"; email := "john@example.com"; role := "admin" |}
              pharmacist eq_refl)
    as (user & Hanswer & Hrole & _).
  exists user. split; [exact Hanswer|exact Hrole].
Defined.

(** X9: the pharmacist on a pharmacy page, end to end, in a browser with
    room for a hundred characters: the role is right, the profile does not
    fit, the page does not authorize. *)
Lemma gate_follows_stored_role_witness :
  (outcome (visit_within 100 "pharmacy" network (logged_in "credential-of-u1"))
   = Authorized
   <-> pharmacist !! "role" = Some (JStr "pharmacy")
       /\ within 100
            (cached stringify
               (on_wire (projection (select_without "password" pharmacist)))
               (logged_in "credential-of-u1"))
          = true)
  /\ pharmacist !! "role" = Some (JStr "pharmacy")
  /\ outcome (visit_within 100 "pharmacy" network (logged_in "credential-of-u1"))
     = Redirecting.
Proof.
  assert (Hnet : network (endpoint base_url) (bearer "credential-of-u1")
                 = Fulfilled
                     (received
                        (successResponse "User profile retrieved"
                           (JObj [("user",
                                   projection
                                     (select_without "password" pharmacist))]))))
    by (vm_compute; reflexivity).
  split; [|split; [reflexivity|vm_compute; reflexivity]].
  exact (proj1 (gate_follows_stored_role users
                  {| userId := "u1"; email := "john@example.com";
                     role := "pharmacy" |}
                  pharmacist
                  (successResponse "User profile retrieved"
                     (JObj [("user",
                             projection (select_without "password" pharmacist))]))
                  base_url "pharmacy" stringify network (within 100)
                  (logged_in "credential-of-u1") "credential-of-u1"
                  eq_refl eq_refl eq_refl Hnet)).
Defined.

(** X10: [fetchUser] on an empty storage. *)
Lemma fetchUser_without_credential_witness :
  truthy ((∅ : gmap string string) !! "token") = None
  /\ run network unlimited (Auth.fetchUser base_url stringify) (fresh ∅)
     = (Normal (Auth.Returned JNull),
        {| storage := ∅; trace := [Called (GetItem "token")] |}).
Proof.
  split; [reflexivity|].
  apply (fetchUser_without_credential base_url stringify network unlimited ∅).
  reflexivity.
Defined.

(** X11: [fetchUser] with an expired credential and an old cache: both
    stay. *)
Lemma fetchUser_rejected_keeps_storage_witness :
  network (Auth.me_url base_url) (bearer "stale")
  = Fulfilled (received (errorResponse "Unauthenticated" 401))
  /\ run network unlimited (Auth.fetchUser base_url stringify)
       (fresh (<["userCache" := "{old}"]> (logged_in "stale")))
     = (Normal (Auth.Threw "Auth failed"),
        {| storage := <["userCache" := "{old}"]> (logged_in "stale");
           trace := [Called (GetItem "token");
                     Called (Fetch (Auth.me_url base_url) (bearer "stale"))] |}).
Proof.
  split; [vm_compute; reflexivity|].
  apply (fetchUser_rejected_keeps_storage base_url stringify network unlimited
           (<["userCache" := "{old}"]> (logged_in "stale")) "stale"
           (received (errorResponse "Unauthenticated" 401)));
    vm_compute; reflexivity.
Defined.

(** X12: [fetchUser] for the pharmacist, in a browser with room for a
    hundred characters: the profile does not fit. *)
Lemma fetchUser_caches_whatever_role_witness :
  Auth.user_of envelope = inr profile
  /\ (run network (within 100) (Auth.fetchUser base_url stringify)
        (fresh (logged_in "credential-of-u1"))).1
     = Abrupt QuotaExceededError
  /\ storage (run network (within 100) (Auth.fetchUser base_url stringify)
                (fresh (logged_in "credential-of-u1"))).2
     = logged_in "credential-of-u1".
Proof.
  assert (Hnet : network (Auth.me_url base_url) (bearer "credential-of-u1")
                 = Fulfilled answer) by (vm_compute; reflexivity).
  assert (Huser : Auth.user_of envelope = inr profile)
    by (vm_compute; reflexivity).
  assert (Hfull : within 100
                    (<["userCache" := Auth.stored stringify profile]>
                       (logged_in "credential-of-u1")) = false)
    by (vm_compute; reflexivity).
  split; [exact Huser|].
  pose proof (fetchUser_caches_whatever_role base_url stringify network
                (within 100) (logged_in "credential-of-u1") "credential-of-u1"
                answer envelope profile eq_refl Hnet eq_refl eq_refl Huser)
    as Hfetch.
  rewrite Hfull in Hfetch. exact Hfetch.
Defined.


(** X15: what the pharmacy page cached for the pharmacist. *)
Lemma cache_holds_verified_user_witness :
  Called (SetItem "userCache" (stringify profile))
    ∈ trace (visit "pharmacy" network (logged_in "credential-of-u1"))
  /\ exists props : list (string * JSValue),
      stringify profile = stringify (JObj props)
      /\ own_prop "role" props = Some (JStr "pharmacy").
Proof.
  assert (Hwritten :
    Called (SetItem "userCache" (stringify profile))
      ∈ trace (visit "pharmacy" network (logged_in "credential-of-u1"))).
  { rewrite (proj1 pharmacist_on_pharmacy_page). repeat constructor. }
  split; [exact Hwritten|].
  exact (proj2 (cache_holds_verified_user base_url "pharmacy" stringify network unlimited
                  (logged_in "credential-of-u1") "userCache" (stringify profile) Hwritten)).
Defined.
